(** * peakpip: a shallow embedding of [main.go]

    peakpip is a command-line wrapper around pip.  Each verb either builds an
    argument list and runs the pip executable, or queries the PyPI JSON index
    over HTTP.  The embedding keeps the shape of the Go source: the [PeakPip]
    struct and its methods, the cobra commands with their [Args] validators
    and [RunE] closures, and [main].

    Everything the program does to the outside world (running a child
    process, an HTTP GET, a write to stdout or stderr) is recorded as an
    [event] in a chronological trace, threaded through a small state monad.
    What the outside world answers (exit status of a child, HTTP response,
    outcome of JSON decoding, PATH lookup) is not decided by the program; it
    is taken as a family of oracles, variables of the section [Program]. *)

From stdpp Require Import base strings list gmap pretty.
From Stdlib Require Import ZArith Ascii.

Local Open Scope Z_scope.

(** ** Constants (main.go, lines 11-16) *)

Definition PyPIURL : string := "https://pypi.org/pypi".
Definition PyPISimpleURL : string := "https://pypi.org/simple".
(** [30 * time.Second], a [time.Duration] counted in nanoseconds. *)
Definition DefaultTimeout : Z := 30 * 1000000000.
Definition MaxConcurrency : Z := 10.
(** [http.StatusOK] *)
Definition StatusOK : Z := 200.

(** The line feed written by the ["\n"] of the Go format strings. *)
Definition nl : string := String (ascii_of_nat 10) "".

(** ** Data model (main.go, lines 17-55) *)

Record Release := {
  Filename : string;
  URL : string;
  PackageType : string;
  Size : Z;
  MD5Digest : string;
  SHA256Digest : string;
  UploadTime : string;
  PythonVersion : string
}.

Record Package := {
  Name : string;
  Version : string;
  Summary : string;
  Description : string;
  Author : string;
  Homepage : string;
  License : string;
  Keywords : list string;
  Classifiers : list string;
  Dependencies : list string;
  URLs : gmap string string
}.

Record PackageInfo := {
  Info : Package;
  Releases : gmap string (list Release);
  InfoURLs : list Release
}.

(** [client] is an [*http.Client]; the only thing the program configures on
    it is its [Timeout]. *)
Record PeakPip := {
  client : Z;
  pythonPath : string;
  pipPath : string;
  concurrent : Z;
  quiet : bool;
  verbose : bool;
  dryRun : bool;
  userInstall : bool;
  target : string
}.

(** ** Go [error] values

    The program sees three kinds of [error]: the [*exec.ExitError] of a child
    that exited with a non-zero status, errors made by [fmt.Errorf], and
    errors handed back by a library (transport failure of the HTTP client,
    failure of the JSON decoder, a child that could not be started, a failed
    PATH lookup). *)
Inductive error :=
  | ExitError (code : Z)
  | Errorf (msg : string)
  | LibError (msg : string).

(** The [Error()] method, which is what the verb [%v] prints. *)
Definition Error (e : error) : string :=
  match e with
  | ExitError code => "exit status " +:+ pretty code
  | Errorf msg => msg
  | LibError msg => msg
  end.

(** ** Events and the effect monad *)

(** [EvRun path args inherit]: [exec.Command(path, args...).Run()];
    [inherit] tells whether the child's stdout and stderr were set to the
    dispatcher's own ([cmd.Stdout = os.Stdout; cmd.Stderr = os.Stderr]).
    [EvGet url]: [client.Get(url)].
    [EvStdout s]: [fmt.Printf] / [fmt.Println].
    [EvStderr s]: [fmt.Fprintf(os.Stderr, ...)].
    [EvCobra msg]: cobra's own report of a failed command on stderr
    (the line [Error: msg] followed by the usage text of the command). *)
Inductive event :=
  | EvRun (path : string) (args : list string) (inherit : bool)
  | EvGet (url : string)
  | EvStdout (s : string)
  | EvStderr (s : string)
  | EvCobra (msg : string).

Definition is_run (e : event) : bool :=
  match e with EvRun _ _ _ => true | _ => false end.

Definition is_get (e : event) : bool :=
  match e with EvGet _ => true | _ => false end.

(** The child processes started along a trace, and the HTTP requests made. *)
Definition spawned (tr : list event) : list event := List.filter is_run tr.
Definition requested (tr : list event) : list event := List.filter is_get tr.

(** A computation reads the trace so far and returns a value and the
    extended trace. *)
Definition M (A : Type) : Type := list event -> A * list event.

Definition ret {A} (a : A) : M A := fun tr => (a, tr).

Definition bind {A B} (c : M A) (k : A -> M B) : M B :=
  fun tr => let (a, tr') := c tr in k a tr'.

Notation "'let*' x ':=' c 'in' k" := (bind c (fun x => k))
  (at level 10, x name, c at level 100, k at level 200).

Definition emit (e : event) : M unit := fun tr => (tt, tr ++ [e]).

(** [fmt.Printf] with its format already expanded. *)
Definition Printf (s : string) : M unit := emit (EvStdout s).
Definition Println (s : string) : M unit := emit (EvStdout (s +:+ nl)).
Definition Fprintf_Stderr (s : string) : M unit := emit (EvStderr s).

(** An HTTP response: status code and body. *)
Record Response := { StatusCode : Z; Body : string }.

(** ** The program *)

Section Program.

(** [exec.LookPath]: where an executable name is found on PATH, if at all. *)
Variable LookPath : string -> option string.

(** [cmd.Run()]: [None] is the nil error (the child exited with status 0);
    the answer may depend on everything that happened before. *)
Variable cmd_Run : list event -> string -> list string -> option error.

(** [client.Get(url)]: a transport error or a response. *)
Variable client_Get : list event -> string -> error + Response.

(** [json.NewDecoder(body).Decode(&packageInfo)]: a decoding error or the
    filled [PackageInfo]. *)
Variable json_Decode : string -> error + PackageInfo.

Definition Run (path : string) (args : list string) (inherit : bool)
  : M (option error) :=
  fun tr => (cmd_Run tr path args, tr ++ [EvRun path args inherit]).

Definition Get (url : string) : M (error + Response) :=
  fun tr => (client_Get tr url, tr ++ [EvGet url]).

(** *** Construction and initialisation (lines 56-82) *)

Definition NewPeakPip : PeakPip :=
  {| client := DefaultTimeout; pythonPath := ""; pipPath := "";
     concurrent := MaxConcurrency; quiet := false; verbose := false;
     dryRun := false; userInstall := false; target := "" |}.

Definition set_pythonPath (v : string) (p : PeakPip) : PeakPip :=
  {| client := client p; pythonPath := v; pipPath := pipPath p;
     concurrent := concurrent p; quiet := quiet p; verbose := verbose p;
     dryRun := dryRun p; userInstall := userInstall p; target := target p |}.

Definition set_pipPath (v : string) (p : PeakPip) : PeakPip :=
  {| client := client p; pythonPath := pythonPath p; pipPath := v;
     concurrent := concurrent p; quiet := quiet p; verbose := verbose p;
     dryRun := dryRun p; userInstall := userInstall p; target := target p |}.

(** [Initialize] mutates the receiver; here it returns the updated struct,
    or the error. *)
Definition Initialize (p : PeakPip) : error + PeakPip :=
  let pythonPath :=
    match LookPath "python3" with
    | Some path => Some path
    | None => LookPath "python"
    end in
  match pythonPath with
  | None => inl (Errorf "python executable not found in PATH")
  | Some pythonPath =>
    let p := set_pythonPath pythonPath p in
    let pipPath :=
      match LookPath "pip3" with
      | Some path => Some path
      | None => LookPath "pip"
      end in
    match pipPath with
    | None => inl (Errorf "pip executable not found in PATH")
    | Some pipPath => inr (set_pipPath pipPath p)
    end
  end.

(** *** Index client (lines 83-114) *)

Definition GetPackageInfo (p : PeakPip) (packageName : string)
  : M (error + PackageInfo) :=
  let url := PyPIURL +:+ "/" +:+ packageName +:+ "/json" in
  let* resp := Get url in
  match resp with
  | inl err =>
    ret (inl (Errorf ("failed to fetch package info: " +:+ Error err)))
  | inr resp =>
    if negb (StatusCode resp =? StatusOK) then
      ret (inl (Errorf ("package not found: " +:+ packageName)))
    else
      match json_Decode (Body resp) with
      | inl err =>
        ret (inl (Errorf ("failed to decode package info: " +:+ Error err)))
      | inr packageInfo => ret (inr packageInfo)
      end
  end.

(** Go returns the pair [([]Package, error)]; a nil slice is the empty
    list. *)
Definition SearchPackages (p : PeakPip) (query : string)
  : M (list Package * option error) :=
  let url := PyPISimpleURL +:+ "/" +:+ query +:+ "/" in
  let* resp := Get url in
  match resp with
  | inl err => ret ([], Some (Errorf ("search failed: " +:+ Error err)))
  | inr resp =>
    if StatusCode resp =? StatusOK then
      let* r := GetPackageInfo p query in
      match r with
      | inl err => ret ([], Some err)
      | inr packageInfo => ret ([Info packageInfo], None)
      end
    else ret ([], None)
  end.

(** *** Wrappers around pip (lines 115-272)

    Each wrapper builds its argument list by successive [append]s; the
    list is kept as a definition of its own, [<Method>_args]. *)

Definition InstallPackage_args (p : PeakPip) (packageSpec : string)
  : list string :=
  let args := ["install"] in
  let args := if quiet p then args ++ ["--quiet"] else args in
  let args := if verbose p then args ++ ["--verbose"] else args in
  let args := if userInstall p then args ++ ["--user"] else args in
  let args := if negb (String.eqb (target p) "")
              then args ++ ["--target"; target p] else args in
  args ++ [packageSpec].

Definition InstallPackage (p : PeakPip) (packageSpec : string)
  : M (option error) :=
  if dryRun p then
    let* _ := Printf ("would install: " +:+ packageSpec +:+ nl) in
    ret None
  else Run (pipPath p) (InstallPackage_args p packageSpec) true.

Definition UninstallPackage_args (p : PeakPip) (packageName : string)
  : list string :=
  let args := ["uninstall"; "-y"] in
  let args := if quiet p then args ++ ["--quiet"] else args in
  let args := if verbose p then args ++ ["--verbose"] else args in
  args ++ [packageName].

Definition UninstallPackage (p : PeakPip) (packageName : string)
  : M (option error) :=
  if dryRun p then
    let* _ := Printf ("would uninstall: " +:+ packageName +:+ nl) in
    ret None
  else Run (pipPath p) (UninstallPackage_args p packageName) true.

Definition ListPackages_args (p : PeakPip) (outdated : bool) : list string :=
  let args := ["list"] in
  let args := if outdated then args ++ ["--outdated"] else args in
  let args := if quiet p then args ++ ["--quiet"] else args in
  let args := if verbose p then args ++ ["--verbose"] else args in
  args.

Definition ListPackages (p : PeakPip) (outdated : bool) : M (option error) :=
  Run (pipPath p) (ListPackages_args p outdated) true.

(** [for _, x := range l { f(x) }] for a body that cannot leave the loop. *)
Fixpoint for_each {A} (f : A -> M unit) (l : list A) : M unit :=
  match l with
  | [] => ret tt
  | x :: rest => let* _ := f x in for_each f rest
  end.

Definition ShowPackage (p : PeakPip) (packageName : string)
  : M (option error) :=
  let* r := GetPackageInfo p packageName in
  match r with
  | inl err => ret (Some err)
  | inr packageInfo =>
    let info := Info packageInfo in
    let* _ := Printf ("name: " +:+ Name info +:+ nl) in
    let* _ := Printf ("version: " +:+ Version info +:+ nl) in
    let* _ := Printf ("summary: " +:+ Summary info +:+ nl) in
    let* _ := Printf ("author: " +:+ Author info +:+ nl) in
    let* _ := Printf ("homepage: " +:+ Homepage info +:+ nl) in
    let* _ := Printf ("license: " +:+ License info +:+ nl) in
    let* _ :=
      if (0 <? length (Dependencies info))%nat then
        let* _ := Printf ("dependencies:" +:+ nl) in
        for_each (fun dep => Printf ("  " +:+ dep +:+ nl))
                 (Dependencies info)
      else ret tt in
    let* _ :=
      if (0 <? length (Classifiers info))%nat then
        let* _ := Printf ("classifiers:" +:+ nl) in
        for_each (fun classifier => Printf ("  " +:+ classifier +:+ nl))
                 (Classifiers info)
      else ret tt in
    ret None
  end.

Definition UpgradePackage_args (p : PeakPip) (packageName : string)
  : list string :=
  let args := ["install"; "--upgrade"] in
  let args := if quiet p then args ++ ["--quiet"] else args in
  let args := if verbose p then args ++ ["--verbose"] else args in
  let args := if userInstall p then args ++ ["--user"] else args in
  args ++ [packageName].

Definition UpgradePackage (p : PeakPip) (packageName : string)
  : M (option error) :=
  if dryRun p then
    let* _ := Printf ("would upgrade: " +:+ packageName +:+ nl) in
    ret None
  else Run (pipPath p) (UpgradePackage_args p packageName) true.

Definition DownloadPackage_args (p : PeakPip) (packageName destDir : string)
  : list string :=
  let args := ["download"] in
  let args := if negb (String.eqb destDir "")
              then args ++ ["--dest"; destDir] else args in
  let args := if quiet p then args ++ ["--quiet"] else args in
  let args := if verbose p then args ++ ["--verbose"] else args in
  args ++ [packageName].

Definition DownloadPackage (p : PeakPip) (packageName destDir : string)
  : M (option error) :=
  if dryRun p then
    let* _ := Printf ("would download: " +:+ packageName +:+ " to "
                      +:+ destDir +:+ nl) in
    ret None
  else Run (pipPath p) (DownloadPackage_args p packageName destDir) true.

Definition FreezePackages_args : list string := ["freeze"].

Definition FreezePackages (p : PeakPip) : M (option error) :=
  Run (pipPath p) FreezePackages_args true.

Definition InstallRequirements_args (p : PeakPip) (requirementsFile : string)
  : list string :=
  let args := ["install"; "-r"; requirementsFile] in
  let args := if quiet p then args ++ ["--quiet"] else args in
  let args := if verbose p then args ++ ["--verbose"] else args in
  let args := if userInstall p then args ++ ["--user"] else args in
  let args := if negb (String.eqb (target p) "")
              then args ++ ["--target"; target p] else args in
  args.

Definition InstallRequirements (p : PeakPip) (requirementsFile : string)
  : M (option error) :=
  if dryRun p then
    let* _ := Printf ("would install requirements from: "
                      +:+ requirementsFile +:+ nl) in
    ret None
  else Run (pipPath p) (InstallRequirements_args p requirementsFile) true.

Definition CheckPackage_args (packageName : string) : list string :=
  ["show"; packageName].

(** The child's output streams are left unset here: its output is
    discarded. *)
Definition CheckPackage (p : PeakPip) (packageName : string)
  : M (option error) :=
  Run (pipPath p) (CheckPackage_args packageName) false.

(** *** The cobra library, as far as [main] uses it

    A command has a usage line, an optional validator of its positional
    arguments, an optional [PreRunE] hook and a [RunE] closure.
    [Command.execute] validates the positional arguments first, then runs
    [PreRunE], then [RunE], and stops at the first error. *)

Definition PositionalArgs : Type := list string -> option error.

Definition MinimumNArgs (n : nat) : PositionalArgs := fun args =>
  if (length args <? n)%nat then
    Some (Errorf ("requires at least " +:+ pretty n
                  +:+ " arg(s), only received " +:+ pretty (length args)))
  else None.

Definition ExactArgs (n : nat) : PositionalArgs := fun args =>
  if negb (length args =? n)%nat then
    Some (Errorf ("accepts " +:+ pretty n +:+ " arg(s), received "
                  +:+ pretty (length args)))
  else None.

Record Command := {
  Use : string;
  Short : string;
  Args : option PositionalArgs;
  PreRunE : option (list string -> M (option error));
  RunE : list string -> M (option error)
}.

(** A command without validator accepts any positional arguments. *)
Definition ValidateArgs (c : Command) (args : list string) : option error :=
  match Args c with
  | Some validate => validate args
  | None => None
  end.

Definition execute (c : Command) (a : list string) : M (option error) :=
  match ValidateArgs c a with
  | Some err => ret (Some err)
  | None =>
    let* err := match PreRunE c with
                | Some hook => hook a
                | None => ret None
                end in
    match err with
    | Some err => ret (Some err)
    | None => RunE c a
    end
  end.

(** [for _, pkg := range args { if err := body(pkg); err != nil { return err } };
    return nil]: the loop shared by the [RunE] closures. *)
Fixpoint range_args (body : string -> M (option error)) (args : list string)
  : M (option error) :=
  match args with
  | [] => ret None
  | pkg :: rest =>
    let* err := body pkg in
    match err with
    | Some err => ret (Some err)
    | None => range_args body rest
    end
  end.

(** *** The commands of [main] (lines 288-413)

    The closures capture [peakPip], whose flag fields cobra has filled in
    by the time a hook runs; the values a closure reads through
    [cmd.Flags()] are parameters of the command. *)

Definition installCmd (peakPip : PeakPip) (requirements : string) : Command :=
  {| Use := "install [package...]";
     Short := "install packages";
     Args := Some (MinimumNArgs 1);
     PreRunE := Some (fun args =>
       let reqFile := requirements in
       if negb (String.eqb reqFile "")
       then InstallRequirements peakPip reqFile
       else ret None);
     RunE := fun args =>
       range_args (fun pkg =>
         let* err := InstallPackage peakPip pkg in
         match err with
         | Some err => ret (Some (Errorf ("failed to install " +:+ pkg
                                          +:+ ": " +:+ Error err)))
         | None => ret None
         end) args |}.

Definition uninstallCmd (peakPip : PeakPip) : Command :=
  {| Use := "uninstall [package...]";
     Short := "uninstall packages";
     Args := Some (MinimumNArgs 1);
     PreRunE := None;
     RunE := fun args =>
       range_args (fun pkg =>
         let* err := UninstallPackage peakPip pkg in
         match err with
         | Some err => ret (Some (Errorf ("failed to uninstall " +:+ pkg
                                          +:+ ": " +:+ Error err)))
         | None => ret None
         end) args |}.

Definition listCmd (peakPip : PeakPip) (outdated : bool) : Command :=
  {| Use := "list";
     Short := "list installed packages";
     Args := None;
     PreRunE := None;
     RunE := fun args => ListPackages peakPip outdated |}.

Definition showCmd (peakPip : PeakPip) : Command :=
  {| Use := "show [package...]";
     Short := "show information about packages";
     Args := Some (MinimumNArgs 1);
     PreRunE := None;
     RunE := fun args =>
       range_args (fun pkg =>
         let* err := ShowPackage peakPip pkg in
         match err with
         | Some err => ret (Some (Errorf ("failed to show " +:+ pkg
                                          +:+ ": " +:+ Error err)))
         | None =>
           if (1 <? length args)%nat
           then let* _ := Println "---" in ret None
           else ret None
         end) args |}.

(** [args[0]] panics on an empty slice; [ExactArgs(1)] keeps that case
    away from [RunE] (see [searchCmd_validated]). *)
Definition searchCmd (peakPip : PeakPip) : Command :=
  {| Use := "search [query]";
     Short := "search for packages";
     Args := Some (ExactArgs 1);
     PreRunE := None;
     RunE := fun args =>
       match args with
       | [] => ret (Some (LibError
                 "runtime error: index out of range [0] with length 0"))
       | query :: _ =>
         let* r := SearchPackages peakPip query in
         match r with
         | (_, Some err) => ret (Some err)
         | (packages, None) =>
           let* _ := for_each (fun pkg =>
                       Printf (Name pkg +:+ " (" +:+ Version pkg +:+ ") - "
                               +:+ Summary pkg +:+ nl)) packages in
           ret None
         end
       end |}.

Definition upgradeCmd (peakPip : PeakPip) : Command :=
  {| Use := "upgrade [package...]";
     Short := "upgrade packages";
     Args := Some (MinimumNArgs 1);
     PreRunE := None;
     RunE := fun args =>
       range_args (fun pkg =>
         let* err := UpgradePackage peakPip pkg in
         match err with
         | Some err => ret (Some (Errorf ("failed to upgrade " +:+ pkg
                                          +:+ ": " +:+ Error err)))
         | None => ret None
         end) args |}.

Definition downloadCmd (peakPip : PeakPip) (dest : string) : Command :=
  {| Use := "download [package...]";
     Short := "download packages";
     Args := Some (MinimumNArgs 1);
     PreRunE := None;
     RunE := fun args =>
       let destDir := dest in
       range_args (fun pkg =>
         let* err := DownloadPackage peakPip pkg destDir in
         match err with
         | Some err => ret (Some (Errorf ("failed to download " +:+ pkg
                                          +:+ ": " +:+ Error err)))
         | None => ret None
         end) args |}.

Definition freezeCmd (peakPip : PeakPip) : Command :=
  {| Use := "freeze";
     Short := "output installed packages in requirements format";
     Args := None;
     PreRunE := None;
     RunE := fun args => FreezePackages peakPip |}.

Definition checkCmd (peakPip : PeakPip) : Command :=
  {| Use := "check [package...]";
     Short := "check if packages are installed";
     Args := Some (MinimumNArgs 1);
     PreRunE := None;
     RunE := fun args =>
       range_args (fun pkg =>
         let* err := CheckPackage peakPip pkg in
         match err with
         | Some _ => let* _ := Printf (pkg +:+ ": not installed" +:+ nl) in
                     ret None
         | None => let* _ := Printf (pkg +:+ ": installed" +:+ nl) in
                   ret None
         end) args |}.

(** *** Flags, dispatch and [main] (lines 273-287, 414-418) *)

(** The persistent flags of the root command, bound to fields of
    [peakPip]. *)
Record PersistentFlags := {
  flag_quiet : bool;
  flag_verbose : bool;
  flag_dry_run : bool;
  flag_concurrent : Z
}.

(** A command line that cobra parsed successfully: the subcommand, the
    values of the flags that this subcommand defines, and the positional
    arguments.  [--user], [--target] and [--requirements] exist on
    [install] only, [--outdated] on [list], [--dest] on [download]. *)
Inductive Invocation :=
  | InvokeInstall (user : bool) (target requirements : string)
                  (args : list string)
  | InvokeUninstall (args : list string)
  | InvokeList (outdated : bool) (args : list string)
  | InvokeShow (args : list string)
  | InvokeSearch (args : list string)
  | InvokeUpgrade (args : list string)
  | InvokeDownload (dest : string) (args : list string)
  | InvokeFreeze (args : list string)
  | InvokeCheck (args : list string).

Definition bind_persistent (pf : PersistentFlags) (p : PeakPip) : PeakPip :=
  {| client := client p; pythonPath := pythonPath p; pipPath := pipPath p;
     concurrent := flag_concurrent pf; quiet := flag_quiet pf;
     verbose := flag_verbose pf; dryRun := flag_dry_run pf;
     userInstall := userInstall p; target := target p |}.

Definition bind_install (user : bool) (tgt : string) (p : PeakPip) : PeakPip :=
  {| client := client p; pythonPath := pythonPath p; pipPath := pipPath p;
     concurrent := concurrent p; quiet := quiet p; verbose := verbose p;
     dryRun := dryRun p; userInstall := user; target := tgt |}.

(** The subcommand selected by an invocation, with the flags bound, and
    its positional arguments. *)
Definition dispatch (peakPip : PeakPip) (pf : PersistentFlags)
    (inv : Invocation) : Command * list string :=
  let peakPip := bind_persistent pf peakPip in
  match inv with
  | InvokeInstall user tgt req a =>
      (installCmd (bind_install user tgt peakPip) req, a)
  | InvokeUninstall a => (uninstallCmd peakPip, a)
  | InvokeList outdated a => (listCmd peakPip outdated, a)
  | InvokeShow a => (showCmd peakPip, a)
  | InvokeSearch a => (searchCmd peakPip, a)
  | InvokeUpgrade a => (upgradeCmd peakPip, a)
  | InvokeDownload dest a => (downloadCmd peakPip dest, a)
  | InvokeFreeze a => (freezeCmd peakPip, a)
  | InvokeCheck a => (checkCmd peakPip, a)
  end.

(** [rootCmd.Execute()]: runs the selected subcommand; cobra reports an
    error itself before handing it back. *)
Definition Execute (peakPip : PeakPip) (pf : PersistentFlags)
    (inv : Invocation) : M (option error) :=
  let (c, a) := dispatch peakPip pf inv in
  let* err := execute c a in
  match err with
  | Some err => let* _ := emit (EvCobra (Error err)) in ret (Some err)
  | None => ret None
  end.

(** [main] returns the exit status of the process: [os.Exit(1)] on the two
    error paths, 0 when it returns normally. *)
Definition main (pf : PersistentFlags) (inv : Invocation) : M Z :=
  let peakPip := NewPeakPip in
  match Initialize peakPip with
  | inl err =>
    let* _ := Fprintf_Stderr ("error initializing PeakPip: "
                              +:+ Error err +:+ nl) in
    ret 1
  | inr peakPip =>
    let* err := Execute peakPip pf inv in
    match err with
    | Some err =>
      let* _ := Fprintf_Stderr ("error: " +:+ Error err +:+ nl) in
      ret 1
    | None => ret 0
    end
  end.

End Program.

(** ** A concrete outside world

    Used to run the program on explicit inputs.  Both [python3] and [pip3]
    are on PATH; pip fails with status 1 on any argument list that mentions
    the package [ghost] and with status 2 on one that mentions [broken];
    the index knows [requests] and answers 404 for anything else, except
    that [/pypi/mirror/json] answers 201 with a decodable body and
    [/pypi/garbled/json] answers 200 with a body that does not decode. *)
Module World.

Definition LookPath (file : string) : option string :=
  if String.eqb file "python3" then Some "/usr/bin/python3"
  else if String.eqb file "pip3" then Some "/usr/bin/pip3"
  else None.

Definition mentions (name : string) (args : list string) : bool :=
  existsb (String.eqb name) args.

Definition cmd_Run (tr : list event) (path : string) (args : list string)
  : option error :=
  if mentions "ghost" args then Some (ExitError 1)
  else if mentions "broken" args then Some (ExitError 2)
  else None.

Definition requests_body : string := "{requests}".

Definition client_Get (tr : list event) (url : string) : error + Response :=
  if String.eqb url "https://pypi.org/simple/requests/"
  then inr {| StatusCode := 200; Body := "" |}
  else if String.eqb url "https://pypi.org/pypi/requests/json"
  then inr {| StatusCode := 200; Body := requests_body |}
  else if String.eqb url "https://pypi.org/pypi/mirror/json"
  then inr {| StatusCode := 201; Body := requests_body |}
  else if String.eqb url "https://pypi.org/pypi/garbled/json"
  then inr {| StatusCode := 200; Body := "{" |}
  else inr {| StatusCode := 404; Body := "" |}.

Definition requests_info : PackageInfo :=
  {| Info := {| Name := "requests"; Version := "2.32.3";
                Summary := "Python HTTP for Humans.";
                Description := ""; Author := "Kenneth Reitz";
                Homepage := "https://requests.readthedocs.io";
                License := "Apache-2.0"; Keywords := [];
                Classifiers := ["Programming Language :: Python"];
                Dependencies := ["idna"; "urllib3"]; URLs := ∅ |};
     Releases := ∅; InfoURLs := [] |}.

Definition json_Decode (body : string) : error + PackageInfo :=
  if String.eqb body requests_body then inr requests_info
  else inl (LibError "unexpected EOF").

(** The struct after a successful [Initialize] in this world. *)
Definition peakPip : PeakPip :=
  set_pipPath "/usr/bin/pip3" (set_pythonPath "/usr/bin/python3" NewPeakPip).

Definition no_flags : PersistentFlags :=
  {| flag_quiet := false; flag_verbose := false; flag_dry_run := false;
     flag_concurrent := MaxConcurrency |}.

Definition dry_run : PersistentFlags :=
  {| flag_quiet := false; flag_verbose := false; flag_dry_run := true;
     flag_concurrent := MaxConcurrency |}.

Definition main := main LookPath cmd_Run client_Get json_Decode.

End World.

(** ** Vocabulary of the properties *)

(** [sub] occurs in [s]. *)
Definition Contains (sub s : string) : Prop :=
  exists pre post, s = pre +:+ sub +:+ post.

(** What a dry run of an operation on [name] is said to do: whatever the
    trace so far, it only adds one line on stdout, which mentions the verb
    and the name, and it reports no error.  In particular it starts no child
    process and makes no request. *)
Definition dry_run_behaviour (verb name : string) (op : M (option error))
  : Prop :=
  forall tr, exists msg,
    op tr = (None, tr ++ [EvStdout msg]) /\ Contains verb msg /\ Contains name msg.

Definition set_dryRun (v : bool) (p : PeakPip) : PeakPip :=
  {| client := client p; pythonPath := pythonPath p; pipPath := pipPath p;
     concurrent := concurrent p; quiet := quiet p; verbose := verbose p;
     dryRun := v; userInstall := userInstall p; target := target p |}.

Definition set_quiet (v : bool) (p : PeakPip) : PeakPip :=
  {| client := client p; pythonPath := pythonPath p; pipPath := pipPath p;
     concurrent := concurrent p; quiet := v; verbose := verbose p;
     dryRun := dryRun p; userInstall := userInstall p; target := target p |}.

Definition set_concurrent (v : Z) (p : PeakPip) : PeakPip :=
  {| client := client p; pythonPath := pythonPath p; pipPath := pipPath p;
     concurrent := v; quiet := quiet p; verbose := verbose p;
     dryRun := dryRun p; userInstall := userInstall p; target := target p |}.

Definition set_flag_concurrent (v : Z) (pf : PersistentFlags) : PersistentFlags :=
  {| flag_quiet := flag_quiet pf; flag_verbose := flag_verbose pf;
     flag_dry_run := flag_dry_run pf; flag_concurrent := v |}.

(** The order of tokens the argument lists are said to follow: the verb,
    then behaviour flags, then at most one target or destination option with
    its value, then the package names. *)
Definition behavior_flag (s : string) : bool :=
  existsb (String.eqb s)
    ["--quiet"; "--verbose"; "--user"; "--upgrade"; "-y"; "--outdated"].

Definition destination_option (opts : list string) : Prop :=
  opts = [] \/ exists dir, opts = ["--target"; dir] \/ opts = ["--dest"; dir].

Definition claimed_args (verb : string) (names args : list string) : Prop :=
  exists flags opts,
    args = verb :: flags ++ opts ++ names /\
    forallb behavior_flag flags = true /\
    destination_option opts.

(** The child processes of a loop over [args] are those of the names it got
    to, one child per name, in the order of the names. *)
Definition children_in_order (run : list string -> M (option error))
    (child : string -> event) : Prop :=
  forall args tr, exists n,
    spawned (snd (run args tr)) = spawned tr ++ map child (take n args).

(** The flags appended for [quiet], [verbose] and, where the operation
    looks at it, [userInstall]. *)
Definition common_flags (p : PeakPip) (user : bool) : list string :=
  (if quiet p then ["--quiet"] else []) ++
  (if verbose p then ["--verbose"] else []) ++
  (if user then ["--user"] else []).

(** The statuses the index client is said to accept, 200 to 299. *)
Definition is_2xx (status : Z) : bool := (200 <=? status) && (status <? 300).

(** The error taxonomy of the index client, by the message the code gives
    each error. *)
Definition NetworkError (err : error) : error :=
  Errorf ("failed to fetch package info: " +:+ Error err).
Definition NotFoundError (name : string) : error :=
  Errorf ("package not found: " +:+ name).
Definition DecodeError (err : error) : error :=
  Errorf ("failed to decode package info: " +:+ Error err).

(** [<index>/<name>/json] and the URL of the existence probe. *)
Definition record_url (name : string) : string :=
  PyPIURL +:+ "/" +:+ name +:+ "/json".
Definition probe_url (query : string) : string :=
  PyPISimpleURL +:+ "/" +:+ query +:+ "/".

(** The positional arguments of an invocation, and the same invocation on
    other arguments. *)
Definition args_of (inv : Invocation) : list string :=
  match inv with
  | InvokeInstall _ _ _ a | InvokeUninstall a | InvokeList _ a | InvokeShow a
  | InvokeSearch a | InvokeUpgrade a | InvokeDownload _ a | InvokeFreeze a
  | InvokeCheck a => a
  end.

Definition with_args (inv : Invocation) (a : list string) : Invocation :=
  match inv with
  | InvokeInstall user tgt req _ => InvokeInstall user tgt req a
  | InvokeUninstall _ => InvokeUninstall a
  | InvokeList outdated _ => InvokeList outdated a
  | InvokeShow _ => InvokeShow a
  | InvokeSearch _ => InvokeSearch a
  | InvokeUpgrade _ => InvokeUpgrade a
  | InvokeDownload dest _ => InvokeDownload dest a
  | InvokeFreeze _ => InvokeFreeze a
  | InvokeCheck _ => InvokeCheck a
  end.

(** The commands whose loop returns at the first error. *)
Definition fail_fast (inv : Invocation) : bool :=
  match inv with
  | InvokeInstall _ _ _ _ | InvokeUninstall _ | InvokeShow _
  | InvokeUpgrade _ | InvokeDownload _ _ => true
  | _ => false
  end.

(** The commands declared with [cobra.MinimumNArgs(1)]. *)
Definition takes_names (inv : Invocation) : bool :=
  match inv with
  | InvokeInstall _ _ _ _ | InvokeUninstall _ | InvokeShow _
  | InvokeUpgrade _ | InvokeDownload _ _ | InvokeCheck _ => true
  | _ => false
  end.

(** A computation that only appends to the trace, and appends only events
    that satisfy [P]. *)
Definition adds_only {A} (P : event -> Prop) (c : M A) : Prop :=
  forall tr, exists out, snd (c tr) = tr ++ out /\ Forall P out.

(** The commands served by the index client rather than by pip. *)
Definition uses_index (inv : Invocation) : bool :=
  match inv with
  | InvokeShow _ | InvokeSearch _ => true
  | _ => false
  end.

(** What an invocation may do to the outside world when pip was found at
    [pip]: run that executable, unless the command is served by the index;
    or, if it is, request the record or the probe URL of one of its
    arguments.  Output is not restricted. *)
Definition permitted (pip : string) (inv : Invocation) (e : event) : Prop :=
  match e with
  | EvRun path _ _ => path = pip /\ uses_index inv = false
  | EvGet url =>
      uses_index inv = true /\
      exists name, In name (args_of inv) /\
                   (url = record_url name \/ url = probe_url name)
  | _ => True
  end.

(** The commands that read none of the persistent flags. *)
Definition ignores_flags (inv : Invocation) : bool :=
  match inv with
  | InvokeShow _ | InvokeSearch _ | InvokeFreeze _ | InvokeCheck _ => true
  | _ => false
  end.

(** The commands declared without an [Args] validator. *)
Definition takes_no_names (inv : Invocation) : bool :=
  match inv with
  | InvokeList _ _ | InvokeFreeze _ => true
  | _ => false
  end.

(** The commands whose operation looks at [dryRun], and the lines a dry run
    of them prints: one for the requirements file, if any, then one per
    name. *)
Definition has_dry_run (inv : Invocation) : bool :=
  match inv with
  | InvokeInstall _ _ _ _ | InvokeUninstall _ | InvokeUpgrade _
  | InvokeDownload _ _ => true
  | _ => false
  end.

Definition dry_run_lines (inv : Invocation) : list event :=
  match inv with
  | InvokeInstall _ _ req a =>
      (if negb (String.eqb req "")
       then [EvStdout ("would install requirements from: " +:+ req +:+ nl)]
       else [])
      ++ map (fun pkg => EvStdout ("would install: " +:+ pkg +:+ nl)) a
  | InvokeUninstall a =>
      map (fun pkg => EvStdout ("would uninstall: " +:+ pkg +:+ nl)) a
  | InvokeUpgrade a =>
      map (fun pkg => EvStdout ("would upgrade: " +:+ pkg +:+ nl)) a
  | InvokeDownload dest a =>
      map (fun pkg => EvStdout ("would download: " +:+ pkg +:+ " to "
                                +:+ dest +:+ nl)) a
  | _ => []
  end.

(** An error that names the package it is about: [failed to <verb> <pkg>:
    <cause>], for one of the names in [args]. *)
Definition names_failing_package (verb : string) (args : list string)
    (e : error) : Prop :=
  exists pkg cause,
    In pkg args /\
    e = Errorf ("failed to " +:+ verb +:+ " " +:+ pkg +:+ ": " +:+ Error cause).

(** The argument list of [pip install --upgrade] as the upgrade command can
    issue it. *)
Definition upgrade_child (pip : string) (pf : PersistentFlags) (name : string)
  : event :=
  EvRun pip
    ("install" :: "--upgrade"
       :: (if flag_quiet pf then ["--quiet"] else [])
       ++ (if flag_verbose pf then ["--verbose"] else [])
       ++ [name]) true.

(** What the check command adds to the trace for one name: the child
    [pip show name], whose output is discarded, and the verdict line. *)
Definition check_report (pip name : string) (installed : bool) : list event :=
  [EvRun pip ["show"; name] false;
   EvStdout (name +:+ (if installed then ": installed" else ": not installed")
             +:+ nl)].

(** The lines [ShowPackage] prints for a record: six fields, then the
    dependencies and the classifiers, each list under its title and left out
    when empty. *)
Definition section_lines (title : string) (l : list string) : list string :=
  if (0 <? length l)%nat
  then (title +:+ nl) :: map (fun x => "  " +:+ x +:+ nl) l
  else [].

Definition show_lines (info : Package) : list string :=
  ["name: " +:+ Name info +:+ nl;
   "version: " +:+ Version info +:+ nl;
   "summary: " +:+ Summary info +:+ nl;
   "author: " +:+ Author info +:+ nl;
   "homepage: " +:+ Homepage info +:+ nl;
   "license: " +:+ License info +:+ nl]
  ++ section_lines "dependencies:" (Dependencies info)
  ++ section_lines "classifiers:" (Classifiers info).

(** The children of a batch command outside a dry run when none of them
    fails; [p] is the struct with the persistent flags bound. *)
Definition batch_children (p : PeakPip) (inv : Invocation) : list event :=
  match inv with
  | InvokeInstall user tgt req a =>
      let p := bind_install user tgt p in
      (if negb (String.eqb req "")
       then [EvRun (pipPath p) (InstallRequirements_args p req) true]
       else [])
      ++ map (fun pkg => EvRun (pipPath p) (InstallPackage_args p pkg) true) a
  | InvokeUninstall a =>
      map (fun pkg => EvRun (pipPath p) (UninstallPackage_args p pkg) true) a
  | InvokeUpgrade a =>
      map (fun pkg => EvRun (pipPath p) (UpgradePackage_args p pkg) true) a
  | InvokeDownload dest a =>
      map (fun pkg => EvRun (pipPath p) (DownloadPackage_args p pkg dest) true) a
  | _ => []
  end.

(** Three more outside worlds for concrete runs: a PATH with python but
    without pip; an index whose simple pages still list [gone] while the
    JSON API no longer has it; a pip that never fails. *)
Definition python_only_LookPath (file : string) : option string :=
  if String.eqb file "python" then Some "/usr/bin/python" else None.

Definition stale_client_Get (tr : list event) (url : string)
  : error + Response :=
  if String.eqb url (probe_url "gone")
  then inr {| StatusCode := 200; Body := "" |}
  else inr {| StatusCode := 404; Body := "" |}.

Definition obliging_cmd_Run (tr : list event) (path : string)
    (args : list string) : option error := None.

(** The names a loop over [names] gets to when it stops at the first child
    that fails: each name up to and including the first one for which pip,
    run on [args_of_name name] in the state reached so far, reports an
    error; all of them when none does. *)
Fixpoint names_reached
    (cmd_Run : list event -> string -> list string -> option error)
    (pip : string) (args_of_name : string -> list string)
    (tr : list event) (names : list string) : list string :=
  match names with
  | [] => []
  | name :: rest =>
      name :: match cmd_Run tr pip (args_of_name name) with
              | Some _ => []
              | None =>
                  names_reached cmd_Run pip args_of_name
                    (tr ++ [EvRun pip (args_of_name name) true]) rest
              end
  end.

(** A command that adds to the trace exactly one child per name reached,
    started on the argument list of that name, in the order of the names. *)
Definition one_child_per_name_reached
    (cmd_Run : list event -> string -> list string -> option error)
    (pip : string) (args_of_name : string -> list string)
    (run : list string -> M (option error)) : Prop :=
  forall names tr,
    snd (run names tr)
    = tr ++ map (fun name => EvRun pip (args_of_name name) true)
                (names_reached cmd_Run pip args_of_name tr names).

(** A struct with every flag of install set, for concrete runs. *)
Definition quiet_user_install : PeakPip :=
  {| client := DefaultTimeout; pythonPath := "/usr/bin/python3";
     pipPath := "/usr/bin/pip3"; concurrent := MaxConcurrency;
     quiet := true; verbose := false; dryRun := false;
     userInstall := true; target := "/opt/site" |}.

(** The struct as the closures of an invocation see it: the persistent
    flags bound, and for install its own [--user] and [--target]. *)
Definition bound (p : PeakPip) (pf : PersistentFlags) (inv : Invocation)
  : PeakPip :=
  match inv with
  | InvokeInstall user tgt _ _ => bind_install user tgt (bind_persistent pf p)
  | _ => bind_persistent pf p
  end.

(** The verb of a batch command, as its error messages spell it. *)
Definition verb_of (inv : Invocation) : string :=
  match inv with
  | InvokeInstall _ _ _ _ => "install"
  | InvokeUninstall _ => "uninstall"
  | InvokeShow _ => "show"
  | InvokeUpgrade _ => "upgrade"
  | InvokeDownload _ _ => "download"
  | InvokeCheck _ => "check"
  | InvokeList _ _ => "list"
  | InvokeSearch _ => "search"
  | InvokeFreeze _ => "freeze"
  end.

(** The method that the loop of a batch command calls for one name, on the
    bound struct [p]. *)
Definition operation
    (cmd_Run : list event -> string -> list string -> option error)
    (client_Get : list event -> string -> error + Response)
    (json_Decode : string -> error + PackageInfo)
    (p : PeakPip) (inv : Invocation) (pkg : string) : M (option error) :=
  match inv with
  | InvokeInstall _ _ _ _ => InstallPackage cmd_Run p pkg
  | InvokeUninstall _ => UninstallPackage cmd_Run p pkg
  | InvokeShow _ => ShowPackage client_Get json_Decode p pkg
  | InvokeUpgrade _ => UpgradePackage cmd_Run p pkg
  | InvokeDownload dest _ => DownloadPackage cmd_Run p pkg dest
  | InvokeCheck _ => CheckPackage cmd_Run p pkg
  | _ => ret None
  end.

(** The argument list of the child that this method starts for one name. *)
Definition name_args (p : PeakPip) (inv : Invocation) (pkg : string)
  : list string :=
  match inv with
  | InvokeInstall _ _ _ _ => InstallPackage_args p pkg
  | InvokeUninstall _ => UninstallPackage_args p pkg
  | InvokeUpgrade _ => UpgradePackage_args p pkg
  | InvokeDownload dest _ => DownloadPackage_args p pkg dest
  | InvokeCheck _ => CheckPackage_args pkg
  | _ => []
  end.

(** What runs before the loop: the installation of the requirements file,
    for an install that names one. *)
Definition prelude
    (cmd_Run : list event -> string -> list string -> option error)
    (p : PeakPip) (inv : Invocation) : M (option error) :=
  match inv with
  | InvokeInstall _ _ req _ =>
      if negb (String.eqb req "") then InstallRequirements cmd_Run p req
      else ret None
  | _ => ret None
  end.

(** What the loop prints after a name whose operation succeeded: the show
    command, given more than one name, prints a separator line. *)
Definition separator (inv : Invocation) (names : list string) : list event :=
  match inv with
  | InvokeShow _ =>
      if (1 <? length names)%nat then [EvStdout ("---" +:+ nl)] else []
  | _ => []
  end.

(** The operations for [names], taken in order from the trace [tr], all
    succeed ([sep] is added after each): the result is the trace they
    leave, or [None] as soon as one of them fails. *)
Fixpoint pass_all (op : string -> M (option error)) (sep : list event)
    (names : list string) (tr : list event) : option (list event) :=
  match names with
  | [] => Some tr
  | name :: rest =>
      match op name tr with
      | (None, tr1) => pass_all op sep rest (tr1 ++ sep)
      | (Some _, _) => None
      end
  end.

(** The two reports of a failed batch on stderr, cobra's and [main]'s. *)
Definition failure_reports (verb pkg : string) (e : error) : list event :=
  let msg := "failed to " +:+ verb +:+ " " +:+ pkg +:+ ": " +:+ Error e in
  [EvCobra msg; EvStderr ("error: " +:+ msg +:+ nl)].

(** ** Properties *)

Lemma spawned_app tr1 tr2 : spawned (tr1 ++ tr2) = spawned tr1 ++ spawned tr2.
Proof. apply List.filter_app. Qed.

Lemma requested_app tr1 tr2 :
  requested (tr1 ++ tr2) = requested tr1 ++ requested tr2.
Proof. apply List.filter_app. Qed.

Lemma dry_run_behaviour_no_child verb name op tr :
  dry_run_behaviour verb name op ->
  spawned (snd (op tr)) = spawned tr /\ requested (snd (op tr)) = requested tr.
Proof.
  intros H. destruct (H tr) as (msg & -> & _). simpl.
  rewrite spawned_app, requested_app. simpl. by rewrite !app_nil_r.
Qed.

Section DryRun.

Variable cmd_Run : list event -> string -> list string -> option error.

(** C1 (as amended).  With [dryRun] set, each of install, uninstall,
    upgrade, download and requirements-file install starts no child
    process: all it does is print one line that contains the verb and the
    target name.  List, freeze and check run pip all the same. *)
Theorem dry_run_replaces_the_child_process :
  forall (p : PeakPip) (pkg destDir file : string),
    dryRun p = true ->
    dry_run_behaviour "install" pkg (InstallPackage cmd_Run p pkg) /\
    dry_run_behaviour "uninstall" pkg (UninstallPackage cmd_Run p pkg) /\
    dry_run_behaviour "upgrade" pkg (UpgradePackage cmd_Run p pkg) /\
    dry_run_behaviour "download" pkg (DownloadPackage cmd_Run p pkg destDir) /\
    dry_run_behaviour "install" file (InstallRequirements cmd_Run p file) /\
    (forall outdated tr,
        ListPackages cmd_Run p outdated tr
        = (cmd_Run tr (pipPath p) (ListPackages_args p outdated),
           tr ++ [EvRun (pipPath p) (ListPackages_args p outdated) true])) /\
    (forall tr,
        FreezePackages cmd_Run p tr
        = (cmd_Run tr (pipPath p) ["freeze"],
           tr ++ [EvRun (pipPath p) ["freeze"] true])) /\
    (forall tr,
        CheckPackage cmd_Run p pkg tr
        = (cmd_Run tr (pipPath p) ["show"; pkg],
           tr ++ [EvRun (pipPath p) ["show"; pkg] false])).
Proof.
  intros p pkg destDir file Hdry.
  unfold InstallPackage, UninstallPackage, UpgradePackage, DownloadPackage,
    InstallRequirements.
  rewrite Hdry.
  repeat match goal with |- _ /\ _ => split end; try reflexivity;
    intros tr; eexists; (split; [reflexivity |]); split.
  - by exists "would ", (": " +:+ pkg +:+ nl).
  - by exists "would install: ", nl.
  - by exists "would ", (": " +:+ pkg +:+ nl).
  - by exists "would uninstall: ", nl.
  - by exists "would ", (": " +:+ pkg +:+ nl).
  - by exists "would upgrade: ", nl.
  - by exists "would ", (": " +:+ pkg +:+ " to " +:+ destDir +:+ nl).
  - by exists "would download: ", (" to " +:+ destDir +:+ nl).
  - by exists "would ", (" requirements from: " +:+ file +:+ nl).
  - by exists "would install requirements from: ", nl.
Qed.

End DryRun.

(** C1, witness: a dry run in the concrete world. *)
Lemma dry_run_replaces_the_child_process_witness :
  dryRun (set_dryRun true World.peakPip) = true /\
  dry_run_behaviour "install" "requests"
    (InstallPackage World.cmd_Run (set_dryRun true World.peakPip) "requests").
Proof.
  split; [reflexivity |].
  apply (dry_run_replaces_the_child_process World.cmd_Run
           (set_dryRun true World.peakPip) "requests" "" "").
  reflexivity.
Defined.

(** C1, counterexample.  [list], [freeze] and [check] do not look at
    [dryRun]: with the flag set they still run pip. *)
Lemma dry_run_list_freeze_check_run_pip :
  let p := set_dryRun true World.peakPip in
  dryRun p = true /\
  ListPackages World.cmd_Run p false []
    = (None, [EvRun "/usr/bin/pip3" ["list"] true]) /\
  FreezePackages World.cmd_Run p []
    = (None, [EvRun "/usr/bin/pip3" ["freeze"] true]) /\
  CheckPackage World.cmd_Run p "requests" []
    = (None, [EvRun "/usr/bin/pip3" ["show"; "requests"] false]) /\
  World.main World.dry_run (InvokeList false []) []
    = (0, [EvRun "/usr/bin/pip3" ["list"] true]) /\
  ~ dry_run_behaviour "list" "" (ListPackages World.cmd_Run p false) /\
  ~ dry_run_behaviour "freeze" "" (FreezePackages World.cmd_Run p) /\
  ~ dry_run_behaviour "check" "requests" (CheckPackage World.cmd_Run p "requests").
Proof.
  repeat split; try reflexivity;
    intros H; destruct (H []) as (msg & Heq & _); vm_compute in Heq;
    discriminate Heq.
Qed.

Lemma range_args_children body child :
  (forall pkg tr, spawned (snd (body pkg tr)) = spawned tr ++ [child pkg]) ->
  children_in_order (range_args body) child.
Proof.
  intros Hbody args. induction args as [| pkg rest IH]; intros tr.
  - exists 0%nat. simpl. by rewrite app_nil_r.
  - simpl. unfold bind. specialize (Hbody pkg tr).
    destruct (body pkg tr) as [[err |] tr1]; simpl in Hbody.
    + exists 1%nat. simpl. by rewrite Hbody.
    + destruct (IH tr1) as [n Hn]. exists (S n). simpl.
      rewrite Hn, Hbody, <- app_assoc. reflexivity.
Qed.

Lemma range_args_total body child :
  (forall pkg tr, fst (body pkg tr) = None /\
                  spawned (snd (body pkg tr)) = spawned tr ++ [child pkg]) ->
  forall args tr,
    fst (range_args body args tr) = None /\
    spawned (snd (range_args body args tr)) = spawned tr ++ map child args.
Proof.
  intros Hbody args. induction args as [| pkg rest IH]; intros tr; simpl.
  - by rewrite app_nil_r.
  - unfold bind. destruct (Hbody pkg tr) as [Hnone Hrun].
    destruct (body pkg tr) as [r tr1]. simpl in Hnone, Hrun. subst r.
    destruct (IH tr1) as [-> ->]. by rewrite Hrun, <- app_assoc.
Qed.

Lemma range_args_reached cmd_Run pip args_of_name body :
  (forall name tr, exists wrap : error -> error,
      body name tr
      = (wrap <$> cmd_Run tr pip (args_of_name name),
         tr ++ [EvRun pip (args_of_name name) true])) ->
  one_child_per_name_reached cmd_Run pip args_of_name (range_args body).
Proof.
  intros Hbody names. induction names as [| name rest IH]; intros tr; simpl.
  - by rewrite app_nil_r.
  - unfold bind. destruct (Hbody name tr) as [wrap ->].
    destruct (cmd_Run tr pip (args_of_name name)); simpl; [done |].
    by rewrite IH, <- app_assoc.
Qed.

Section Arguments.

Variable cmd_Run : list event -> string -> list string -> option error.

Lemma common_flags_behavior p user :
  forallb behavior_flag (common_flags p user) = true.
Proof. unfold common_flags. by destruct (quiet p), (verbose p), user. Qed.

Lemma option_of_dir flag dir :
  flag = "--target" \/ flag = "--dest" ->
  destination_option
    (if negb (String.eqb dir "") then [flag; dir] else []).
Proof.
  intros Hflag. destruct (String.eqb dir ""); simpl.
  - by left.
  - right. exists dir. destruct Hflag as [-> | ->]; [by left | by right].
Qed.

(** C2 (as amended).  Outside a dry run every child gets one argument
    list per package name.  For install, uninstall and list it is the verb,
    then behaviour flags, then the target option, then the name; upgrade
    is run as pip's [install] with [--upgrade] as its first flag, check as
    pip's [show], freeze as the verb alone.  Download puts its [--dest]
    option before the behaviour flags, and requirements-file install puts
    [-r file] right after the verb.  The loop of install, uninstall,
    upgrade and download adds to the trace exactly the children of the
    names it reaches, in the order of the names: every name up to and
    including the first whose child fails.  Check runs a child for every
    name, in order. *)
Theorem argument_lists_as_built :
  forall (p : PeakPip) (pkg destDir file : string) (outdated : bool),
    dryRun p = false ->
    claimed_args "install" [pkg] (InstallPackage_args p pkg) /\
    claimed_args "uninstall" [pkg] (UninstallPackage_args p pkg) /\
    claimed_args "list" [] (ListPackages_args p outdated) /\
    claimed_args "install" [pkg] (UpgradePackage_args p pkg) /\
    hd_error (tl (UpgradePackage_args p pkg)) = Some "--upgrade" /\
    claimed_args "freeze" [] FreezePackages_args /\
    claimed_args "show" [pkg] (CheckPackage_args pkg) /\
    (exists flags opts,
        DownloadPackage_args p pkg destDir
          = "download" :: opts ++ flags ++ [pkg] /\
        forallb behavior_flag flags = true /\ destination_option opts) /\
    (exists flags opts,
        InstallRequirements_args p file
          = "install" :: "-r" :: file :: flags ++ opts /\
        forallb behavior_flag flags = true /\ destination_option opts) /\
    one_child_per_name_reached cmd_Run (pipPath p) (InstallPackage_args p)
      (RunE (installCmd cmd_Run p "")) /\
    one_child_per_name_reached cmd_Run (pipPath p) (UninstallPackage_args p)
      (RunE (uninstallCmd cmd_Run p)) /\
    one_child_per_name_reached cmd_Run (pipPath p) (UpgradePackage_args p)
      (RunE (upgradeCmd cmd_Run p)) /\
    one_child_per_name_reached cmd_Run (pipPath p)
      (fun name => DownloadPackage_args p name destDir)
      (RunE (downloadCmd cmd_Run p destDir)) /\
    (forall names tr,
        spawned (snd (RunE (checkCmd cmd_Run p) names tr))
        = spawned tr
          ++ map (fun name => EvRun (pipPath p) (CheckPackage_args name) false)
                 names).
Proof.
  intros p pkg destDir file outdated Hdry.
  pose proof (common_flags_behavior p) as Hflags.
  repeat match goal with |- _ /\ _ => split end.
  - exists (common_flags p (userInstall p)),
      (if negb (String.eqb (target p) "") then ["--target"; target p] else []).
    split; [| split; [apply Hflags | apply option_of_dir; by left]].
    unfold InstallPackage_args, common_flags.
    by destruct (quiet p), (verbose p), (userInstall p),
      (negb (String.eqb (target p) "")).
  - exists ("-y" :: common_flags p false), [].
    split; [| split; [simpl; apply Hflags | by left]].
    unfold UninstallPackage_args, common_flags.
    by destruct (quiet p), (verbose p).
  - exists ((if outdated then ["--outdated"] else []) ++ common_flags p false), [].
    split; [| split; [| by left]].
    + unfold ListPackages_args, common_flags.
      by destruct outdated, (quiet p), (verbose p).
    + rewrite forallb_app, Hflags. by destruct outdated.
  - exists ("--upgrade" :: common_flags p (userInstall p)), [].
    split; [| split; [simpl; apply Hflags | by left]].
    unfold UpgradePackage_args, common_flags.
    by destruct (quiet p), (verbose p), (userInstall p).
  - unfold UpgradePackage_args.
    by destruct (quiet p), (verbose p), (userInstall p).
  - exists [], []. repeat split. by left.
  - exists [], []. repeat split. by left.
  - exists (common_flags p false),
      (if negb (String.eqb destDir "") then ["--dest"; destDir] else []).
    split; [| split; [apply Hflags | apply option_of_dir; by right]].
    unfold DownloadPackage_args, common_flags.
    by destruct (quiet p), (verbose p), (negb (String.eqb destDir "")).
  - exists (common_flags p (userInstall p)),
      (if negb (String.eqb (target p) "") then ["--target"; target p] else []).
    split; [| split; [apply Hflags | apply option_of_dir; by left]].
    unfold InstallRequirements_args, common_flags.
    by destruct (quiet p), (verbose p), (userInstall p),
      (negb (String.eqb (target p) "")).
  - apply range_args_reached. intros name tr.
    exists (fun err => Errorf ("failed to install " +:+ name +:+ ": "
                               +:+ Error err)).
    unfold bind, InstallPackage, Run. rewrite Hdry.
    by destruct (cmd_Run _ _ _).
  - apply range_args_reached. intros name tr.
    exists (fun err => Errorf ("failed to uninstall " +:+ name +:+ ": "
                               +:+ Error err)).
    unfold bind, UninstallPackage, Run. rewrite Hdry.
    by destruct (cmd_Run _ _ _).
  - apply range_args_reached. intros name tr.
    exists (fun err => Errorf ("failed to upgrade " +:+ name +:+ ": "
                               +:+ Error err)).
    unfold bind, UpgradePackage, Run. rewrite Hdry.
    by destruct (cmd_Run _ _ _).
  - apply range_args_reached. intros name tr.
    exists (fun err => Errorf ("failed to download " +:+ name +:+ ": "
                               +:+ Error err)).
    unfold bind, DownloadPackage, Run. rewrite Hdry.
    by destruct (cmd_Run _ _ _).
  - intros names tr.
    apply (range_args_total _
             (fun name => EvRun (pipPath p) (CheckPackage_args name) false)).
    intros name tr0. unfold bind, CheckPackage, Run, Printf, emit.
    destruct (cmd_Run _ _ _); simpl; by rewrite <- app_assoc, spawned_app.
Qed.

End Arguments.

(** C2, concrete run: the argument list of a quiet user install into a
    target directory, and an install of three names that stops at the
    second. *)
Lemma argument_lists_as_built_witness :
  dryRun quiet_user_install = false /\
  InstallPackage_args quiet_user_install "requests"
    = ["install"; "--quiet"; "--user"; "--target"; "/opt/site"; "requests"] /\
  claimed_args "install" ["requests"]
    (InstallPackage_args quiet_user_install "requests") /\
  snd (RunE (installCmd World.cmd_Run quiet_user_install "")
         ["requests"; "ghost"; "idna"] [])
    = [EvRun "/usr/bin/pip3"
         ["install"; "--quiet"; "--user"; "--target"; "/opt/site"; "requests"]
         true;
       EvRun "/usr/bin/pip3"
         ["install"; "--quiet"; "--user"; "--target"; "/opt/site"; "ghost"]
         true].
Proof.
  split; [reflexivity |]. split; [reflexivity |].
  pose proof (argument_lists_as_built World.cmd_Run quiet_user_install
                "requests" "/tmp" "requirements.txt" false eq_refl)
    as (Hinstall & _ & _ & _ & _ & _ & _ & _ & _ & Hloop & _).
  split; [exact Hinstall |].
  rewrite (Hloop ["requests"; "ghost"; "idna"] []). reflexivity.
Defined.

(** C2, counterexample.  The first token is not always the verb: check runs
    [pip show] and upgrade runs [pip install --upgrade].  And with both a
    destination and [--quiet], download puts [--dest dir] before the
    behaviour flag. *)
Lemma argument_lists_not_in_claimed_order :
  CheckPackage_args "requests" = ["show"; "requests"] /\
  ~ claimed_args "check" ["requests"] (CheckPackage_args "requests") /\
  UpgradePackage_args World.peakPip "requests"
    = ["install"; "--upgrade"; "requests"] /\
  ~ claimed_args "upgrade" ["requests"]
      (UpgradePackage_args World.peakPip "requests") /\
  DownloadPackage_args (set_quiet true World.peakPip) "requests" "/tmp"
    = ["download"; "--dest"; "/tmp"; "--quiet"; "requests"] /\
  ~ claimed_args "download" ["requests"]
      (DownloadPackage_args (set_quiet true World.peakPip) "requests" "/tmp").
Proof.
  repeat split.
  - intros (flags & opts & Heq & _). discriminate Heq.
  - intros (flags & opts & Heq & _). discriminate Heq.
  - intros (flags & opts & Heq & Hflags & Hopts).
    vm_compute in Heq. injection Heq as Heq.
    destruct flags as [| flag flags].
    + destruct Hopts as [-> | [dir [-> | ->]]]; discriminate Heq.
    + injection Heq as <- _. discriminate Hflags.
Qed.

Section IndexClient.

Variable client_Get : list event -> string -> error + Response.
Variable json_Decode : string -> error + PackageInfo.

(** C3 (as amended).  [GetPackageInfo] makes exactly one request, a GET of
    [<index>/<name>/json].  When a response comes back, any status other
    than 200 gives the not-found error; status 200 with a body that does
    not decode gives the decode error; status 200 with a body that decodes
    gives the decoded record. *)
Theorem GetPackageInfo_outcomes :
  forall (p : PeakPip) (name : string) (tr : list event) (resp : Response),
    client_Get tr (record_url name) = inr resp ->
    let result := GetPackageInfo client_Get json_Decode p name tr in
    snd result = tr ++ [EvGet (record_url name)] /\
    (StatusCode resp <> 200 -> fst result = inl (NotFoundError name)) /\
    (forall err, StatusCode resp = 200 ->
                 json_Decode (Body resp) = inl err ->
                 fst result = inl (DecodeError err)) /\
    (forall info, StatusCode resp = 200 ->
                  json_Decode (Body resp) = inr info ->
                  fst result = inr info).
Proof.
  intros p name tr resp Hget result. subst result.
  unfold GetPackageInfo, bind, Get. fold (record_url name). rewrite Hget.
  unfold StatusOK.
  destruct (Z.eqb_spec (StatusCode resp) 200) as [H200 | H200]; simpl.
  - destruct (json_Decode (Body resp)) as [err | info]; simpl;
      (split; [reflexivity |]); (split; [done |]);
      split; intros; unfold DecodeError; congruence.
  - (split; [reflexivity |]); (split; [done |]); split; done.
Qed.

End IndexClient.

(** C3, witness: in the concrete world, the record of [requests], the
    decode error of [garbled] and the not-found error of [ghost]. *)
Lemma GetPackageInfo_outcomes_witness :
  World.client_Get [] (record_url "requests")
    = inr {| StatusCode := 200; Body := World.requests_body |} /\
  fst (GetPackageInfo World.client_Get World.json_Decode World.peakPip
         "requests" []) = inr World.requests_info /\
  fst (GetPackageInfo World.client_Get World.json_Decode World.peakPip
         "garbled" []) = inl (DecodeError (LibError "unexpected EOF")) /\
  fst (GetPackageInfo World.client_Get World.json_Decode World.peakPip
         "ghost" []) = inl (NotFoundError "ghost").
Proof.
  split; [reflexivity |]. split; [| split].
  - apply (GetPackageInfo_outcomes World.client_Get World.json_Decode
             World.peakPip "requests" []
             {| StatusCode := 200; Body := World.requests_body |} eq_refl);
      reflexivity.
  - apply (GetPackageInfo_outcomes World.client_Get World.json_Decode
             World.peakPip "garbled" []
             {| StatusCode := 200; Body := "{" |} eq_refl);
      reflexivity.
  - apply (GetPackageInfo_outcomes World.client_Get World.json_Decode
             World.peakPip "ghost" []
             {| StatusCode := 404; Body := "" |} eq_refl).
    discriminate.
Defined.

(** C3, counterexample.  A 2xx response other than 200 is treated as not
    found even though its body decodes: here the index answers 201. *)
Lemma GetPackageInfo_201_is_not_found :
  World.client_Get [] (record_url "mirror")
    = inr {| StatusCode := 201; Body := World.requests_body |} /\
  is_2xx 201 = true /\
  World.json_Decode World.requests_body = inr World.requests_info /\
  fst (GetPackageInfo World.client_Get World.json_Decode World.peakPip
         "mirror" []) = inl (NotFoundError "mirror") /\
  fst (GetPackageInfo World.client_Get World.json_Decode World.peakPip
         "mirror" []) <> inr World.requests_info.
Proof. repeat split. discriminate. Qed.

(** *** Loops over the package names *)

Section Batches.

Variable LookPath : string -> option string.
Variable cmd_Run : list event -> string -> list string -> option error.
Variable client_Get : list event -> string -> error + Response.
Variable json_Decode : string -> error + PackageInfo.

Local Abbreviation show_cmd := (showCmd client_Get json_Decode).
Local Abbreviation dispatch_on := (dispatch cmd_Run client_Get json_Decode).
Local Abbreviation run_main := (main LookPath cmd_Run client_Get json_Decode).

Lemma MinimumNArgs_1 args :
  MinimumNArgs 1 args = None <-> args <> [].
Proof. unfold MinimumNArgs. by destruct args. Qed.

Lemma dispatch_with_args p pf inv a :
  dispatch_on p pf (with_args inv a) = (fst (dispatch_on p pf inv), a).
Proof. by destruct inv. Qed.

Lemma checkCmd_attempts_all p args tr :
  fst (RunE (checkCmd cmd_Run p) args tr) = None /\
  spawned (snd (RunE (checkCmd cmd_Run p) args tr))
    = spawned tr
      ++ map (fun name => EvRun (pipPath p) (CheckPackage_args name) false)
             args.
Proof.
  apply range_args_total. intros pkg tr0.
  unfold bind, CheckPackage, Run, Printf, emit.
  destruct (cmd_Run _ _ _); simpl; by rewrite <- app_assoc, spawned_app.
Qed.

End Batches.


Section Validation.

Variable LookPath : string -> option string.
Variable cmd_Run : list event -> string -> list string -> option error.
Variable client_Get : list event -> string -> error + Response.
Variable json_Decode : string -> error + PackageInfo.

Local Abbreviation dispatch_on := (dispatch cmd_Run client_Get json_Decode).
Local Abbreviation run_main := (main LookPath cmd_Run client_Get json_Decode).

Lemma ExactArgs_1 args : ExactArgs 1 args = None <-> length args = 1%nat.
Proof.
  unfold ExactArgs. destruct (Nat.eqb_spec (length args) 1); by simpl.
Qed.

(** [RunE] of the search command is only reached with exactly one
    argument, so its [args[0]] never goes out of range. *)
Lemma searchCmd_validated p args :
  ValidateArgs (searchCmd client_Get json_Decode p) args = None ->
  exists query, args = [query].
Proof.
  intros H. apply ExactArgs_1 in H.
  destruct args as [| query [| ? ?]]; try discriminate. by exists query.
Qed.

Lemma rejected_without_effect p pf inv tr :
  (takes_names inv = true /\ args_of inv = []) \/
  (exists a, inv = InvokeSearch a /\ length a <> 1%nat) ->
  exists err,
    execute (fst (dispatch_on p pf inv)) (snd (dispatch_on p pf inv)) tr
    = (Some err, tr).
Proof.
  intros [[Hnames Hargs] | (a & -> & Hlen)].
  - destruct inv; try discriminate; simpl in Hargs; subst; by eexists.
  - unfold dispatch, fst, snd, execute, ValidateArgs. cbv [Args searchCmd].
    destruct (ExactArgs 1 a) as [err |] eqn:Hvalid; [by eexists |].
    by apply ExactArgs_1 in Hvalid.
Qed.

(** C5.  An invocation of install, uninstall, show, upgrade, download or
    check without any package name, and an invocation of search with a
    number of arguments other than one, exits with status 1 without having
    started a child process or made a request.  Conversely, search is let
    through with exactly one argument only. *)
Theorem missing_names_rejected :
  forall (pf : PersistentFlags) (inv : Invocation) (tr : list event),
    (takes_names inv = true /\ args_of inv = []) \/
    (exists a, inv = InvokeSearch a /\ length a <> 1%nat) ->
    fst (run_main pf inv tr) = 1 /\
    spawned (snd (run_main pf inv tr)) = spawned tr /\
    requested (snd (run_main pf inv tr)) = requested tr /\
    (forall p a,
        ValidateArgs (searchCmd client_Get json_Decode p) a = None <->
        length a = 1%nat).
Proof.
  intros pf inv tr Hbad.
  assert (Hmain : fst (run_main pf inv tr) = 1 /\
                  exists out, snd (run_main pf inv tr) = tr ++ out /\
                              spawned out = [] /\ requested out = []).
  { unfold main. destruct (Initialize LookPath NewPeakPip) as [err | p].
    - split; [reflexivity |]. by eexists [_].
    - unfold Execute.
      destruct (rejected_without_effect p pf inv tr Hbad) as [err Herr].
      destruct (dispatch_on p pf inv) as [c a]. simpl in Herr.
      unfold bind. rewrite Herr. simpl.
      split; [reflexivity |]. eexists [_; _].
      by rewrite <- app_assoc. }
  destruct Hmain as (Hcode & out & Hout & Hrun & Hget).
  rewrite Hout, spawned_app, requested_app, Hrun, Hget, !app_nil_r.
  repeat split; try done.
  - apply ExactArgs_1.
  - apply ExactArgs_1.
Qed.

End Validation.

(** C5, witness: [peakpip upgrade] and [peakpip search a b] in the concrete
    world. *)
Lemma missing_names_rejected_witness :
  (takes_names (InvokeUpgrade []) = true /\ args_of (InvokeUpgrade []) = []) /\
  World.main World.no_flags (InvokeUpgrade []) []
    = (1, [EvCobra "requires at least 1 arg(s), only received 0";
           EvStderr ("error: requires at least 1 arg(s), only received 0"
                     +:+ nl)]) /\
  fst (World.main World.no_flags (InvokeSearch ["a"; "b"]) []) = 1.
Proof.
  split; [by split |]. split; [vm_compute; reflexivity |].
  apply (missing_names_rejected World.LookPath World.cmd_Run World.client_Get
           World.json_Decode World.no_flags (InvokeSearch ["a"; "b"]) []).
  right. exists ["a"; "b"]. split; [reflexivity | discriminate].
Defined.

Section Search.

Variable client_Get : list event -> string -> error + Response.
Variable json_Decode : string -> error + PackageInfo.

Local Abbreviation fetch := (GetPackageInfo client_Get json_Decode).
Local Abbreviation search := (SearchPackages client_Get json_Decode).

(** [GetPackageInfo] always makes exactly one request. *)
Lemma GetPackageInfo_trace p name tr :
  snd (fetch p name tr) = tr ++ [EvGet (record_url name)].
Proof.
  unfold GetPackageInfo, bind, Get. fold (record_url name).
  destruct (client_Get tr (record_url name)) as [err | resp]; [done |].
  destruct (negb _); [done |]. by destruct (json_Decode _).
Qed.

(** C6.  Whatever the query, [SearchPackages] returns at most one package.
    Its first action is the GET of the simple-index URL of the query; when
    that probe answers 200, it goes on exactly as [GetPackageInfo] does
    for the same name and returns that one record (or that error). *)
Theorem search_returns_at_most_one :
  forall (p : PeakPip) (query : string) (tr : list event),
    let r := search p query tr in
    (length (fst (fst r)) <= 1)%nat /\
    (exists rest, snd r = tr ++ EvGet (probe_url query) :: rest) /\
    (forall resp,
        client_Get tr (probe_url query) = inr resp ->
        StatusCode resp = 200 ->
        let fetched := fetch p query (tr ++ [EvGet (probe_url query)]) in
        snd r = snd fetched /\
        fst r = match fst fetched with
                | inr packageInfo => ([Info packageInfo], None)
                | inl err => ([], Some err)
                end).
Proof.
  intros p query tr r. subst r.
  unfold SearchPackages, bind, Get. fold (probe_url query).
  destruct (client_Get tr (probe_url query)) as [err | resp].
  - simpl. split; [lia |]. split; [by exists [] | discriminate].
  - unfold StatusOK.
    destruct (Z.eqb_spec (StatusCode resp) 200) as [H200 | H200].
    + pose proof (GetPackageInfo_trace p query
                    (tr ++ [EvGet (probe_url query)])) as Htrace.
      destruct (fetch p query _) as [[err | info] tr2];
        simpl in Htrace; subst tr2; simpl;
        (split; [lia |]); (split; [| done]);
        exists [EvGet (record_url query)]; by rewrite <- app_assoc.
    + simpl. split; [lia |]. split; [by exists [] |].
      intros resp' Heq. by injection Heq as <-.
Qed.

(** C10.  When the probe answers with a status other than 200,
    [SearchPackages] returns no package and no error, having made that one
    request only, and the search command prints nothing and succeeds. *)
Theorem search_miss_is_empty_success :
  forall (p : PeakPip) (query : string) (tr : list event) (resp : Response),
    client_Get tr (probe_url query) = inr resp ->
    StatusCode resp <> 200 ->
    search p query tr = (([], None), tr ++ [EvGet (probe_url query)]) /\
    execute (searchCmd client_Get json_Decode p) [query] tr
      = (None, tr ++ [EvGet (probe_url query)]).
Proof.
  intros p query tr resp Hget Hstatus.
  assert (Hsearch : search p query tr
                    = (([], None), tr ++ [EvGet (probe_url query)])).
  { unfold SearchPackages, bind, Get. fold (probe_url query).
    rewrite Hget. unfold StatusOK.
    by destruct (Z.eqb_spec (StatusCode resp) 200). }
  split; [exact Hsearch |].
  unfold execute, ValidateArgs. cbv [Args PreRunE RunE searchCmd].
  unfold bind. simpl. by rewrite Hsearch.
Qed.

End Search.

(** C6, witness: searching [requests] in the concrete world finds the one
    record that the index client decodes for it. *)
Lemma search_returns_at_most_one_witness :
  World.client_Get [] (probe_url "requests")
    = inr {| StatusCode := 200; Body := "" |} /\
  SearchPackages World.client_Get World.json_Decode World.peakPip "requests" []
    = (([Info World.requests_info], None),
       [EvGet (probe_url "requests"); EvGet (record_url "requests")]).
Proof.
  split; [reflexivity |].
  pose proof (search_returns_at_most_one World.client_Get World.json_Decode
                World.peakPip "requests" []) as (_ & _ & Hhit).
  specialize (Hhit {| StatusCode := 200; Body := "" |} eq_refl eq_refl).
  destruct Hhit as [Htrace Hresult].
  destruct (SearchPackages _ _ _ _ _) as [r tr].
  simpl in Htrace, Hresult. by rewrite Htrace, Hresult.
Defined.

(** C10, witness: searching [ghost], which the index does not know. *)
Lemma search_miss_is_empty_success_witness :
  World.client_Get [] (probe_url "ghost")
    = inr {| StatusCode := 404; Body := "" |} /\
  404 <> 200 /\
  SearchPackages World.client_Get World.json_Decode World.peakPip "ghost" []
    = (([], None), [EvGet (probe_url "ghost")]).
Proof.
  split; [reflexivity |]. split; [discriminate |].
  apply (search_miss_is_empty_success World.client_Get World.json_Decode
           World.peakPip "ghost" [] {| StatusCode := 404; Body := "" |});
    [reflexivity | discriminate].
Defined.

Section ExitStatus.

Variable LookPath : string -> option string.
Variable cmd_Run : list event -> string -> list string -> option error.
Variable client_Get : list event -> string -> error + Response.
Variable json_Decode : string -> error + PackageInfo.

Local Abbreviation dispatch_on := (dispatch cmd_Run client_Get json_Decode).
Local Abbreviation Execute_on := (Execute cmd_Run client_Get json_Decode).
Local Abbreviation run_main := (main LookPath cmd_Run client_Get json_Decode).

Lemma main_exit_status p pf inv tr :
  Initialize LookPath NewPeakPip = inr p ->
  fst (run_main pf inv tr)
  = match fst (Execute_on p pf inv tr) with Some _ => 1 | None => 0 end.
Proof.
  intros Hinit. unfold main. rewrite Hinit. unfold bind.
  by destruct (Execute_on p pf inv tr) as [[err |] tr1].
Qed.

(** C8.  Two runs that differ in the value of [--concurrent] only are
    indistinguishable: same exit status, same trace of child processes
    with their argument lists, requests and output.  No operation reads
    the [concurrent] field either. *)
Theorem concurrent_has_no_effect :
  forall (pf : PersistentFlags) (c : Z) (inv : Invocation) (tr : list event),
    run_main (set_flag_concurrent c pf) inv tr = run_main pf inv tr /\
    (forall (p : PeakPip) (name dest : string) (outdated : bool),
        InstallPackage cmd_Run (set_concurrent c p) name
          = InstallPackage cmd_Run p name /\
        UninstallPackage cmd_Run (set_concurrent c p) name
          = UninstallPackage cmd_Run p name /\
        ListPackages cmd_Run (set_concurrent c p) outdated
          = ListPackages cmd_Run p outdated /\
        ShowPackage client_Get json_Decode (set_concurrent c p) name
          = ShowPackage client_Get json_Decode p name /\
        SearchPackages client_Get json_Decode (set_concurrent c p) name
          = SearchPackages client_Get json_Decode p name /\
        UpgradePackage cmd_Run (set_concurrent c p) name
          = UpgradePackage cmd_Run p name /\
        DownloadPackage cmd_Run (set_concurrent c p) name dest
          = DownloadPackage cmd_Run p name dest /\
        FreezePackages cmd_Run (set_concurrent c p)
          = FreezePackages cmd_Run p /\
        InstallRequirements cmd_Run (set_concurrent c p) name
          = InstallRequirements cmd_Run p name /\
        CheckPackage cmd_Run (set_concurrent c p) name
          = CheckPackage cmd_Run p name).
Proof.
  intros pf c inv tr. split.
  - unfold main. destruct (Initialize LookPath NewPeakPip) as [err | p];
      [reflexivity |].
    by destruct inv.
  - intros p name dest outdated. by repeat split.
Qed.

(** C9.  The argument list that [UninstallPackage] builds starts with
    [uninstall] followed at once by [-y] and ends with the package name;
    outside a dry run this list is the one the child is started with, and
    a dry run starts no child at all. *)
Theorem uninstall_is_auto_confirmed :
  forall (p : PeakPip) (packageName : string) (tr : list event),
    exists rest,
      UninstallPackage_args p packageName
        = "uninstall" :: "-y" :: rest ++ [packageName] /\
      spawned (snd (UninstallPackage cmd_Run p packageName tr))
        = spawned tr
          ++ (if dryRun p then []
              else [EvRun (pipPath p)
                      ("uninstall" :: "-y" :: rest ++ [packageName]) true]).
Proof.
  intros p packageName tr. exists (common_flags p false).
  assert (Hargs : UninstallPackage_args p packageName
                  = "uninstall" :: "-y" :: common_flags p false
                    ++ [packageName]).
  { unfold UninstallPackage_args, common_flags.
    by destruct (quiet p), (verbose p). }
  split; [exact Hargs |].
  unfold UninstallPackage, Run, bind, Printf, emit. rewrite Hargs.
  destruct (dryRun p); simpl; by rewrite spawned_app.
Qed.

End ExitStatus.


(** ** Further properties of the program *)

(** *** Startup *)

Section Startup.

Variable LookPath : string -> option string.

(** X1.  [Initialize] fails exactly when neither [python3] nor [python], or
    neither [pip3] nor [pip], is on PATH; a missing python is reported
    first, and these two errors are the only ones. *)
Theorem Initialize_fails_iff :
  forall p : PeakPip,
    (Initialize LookPath p = inl (Errorf "python executable not found in PATH")
     <-> LookPath "python3" = None /\ LookPath "python" = None) /\
    (Initialize LookPath p = inl (Errorf "pip executable not found in PATH")
     <-> (LookPath "python3" <> None \/ LookPath "python" <> None) /\
         LookPath "pip3" = None /\ LookPath "pip" = None) /\
    ((exists p', Initialize LookPath p = inr p')
     <-> (LookPath "python3" <> None \/ LookPath "python" <> None) /\
         (LookPath "pip3" <> None \/ LookPath "pip" <> None)).
Proof.
  intros p. unfold Initialize.
  destruct (LookPath "python3") as [py3 |], (LookPath "python") as [py |],
    (LookPath "pip3") as [pip3 |], (LookPath "pip") as [pip |];
    simpl; (repeat split); intros;
    repeat match goal with
           | H : _ /\ _ |- _ => destruct H
           | H : ex _ |- _ => destruct H
           end;
    try discriminate; try done; eauto; intuition congruence.
Qed.

(** X2.  A successful [Initialize] prefers [python3] to [python] and [pip3]
    to [pip], falls back to the unversioned name only when the versioned
    one is missing, and changes no other field of the struct. *)
Theorem Initialize_prefers_versioned :
  forall p p' : PeakPip,
    Initialize LookPath p = inr p' ->
    (LookPath "python3" = Some (pythonPath p') \/
     LookPath "python3" = None /\ LookPath "python" = Some (pythonPath p')) /\
    (LookPath "pip3" = Some (pipPath p') \/
     LookPath "pip3" = None /\ LookPath "pip" = Some (pipPath p')) /\
    client p' = client p /\ concurrent p' = concurrent p /\
    quiet p' = quiet p /\ verbose p' = verbose p /\ dryRun p' = dryRun p /\
    userInstall p' = userInstall p /\ target p' = target p.
Proof.
  intros p p'. unfold Initialize.
  destruct (LookPath "python3") as [py3 |], (LookPath "python") as [py |],
    (LookPath "pip3") as [pip3 |], (LookPath "pip") as [pip |];
    intros H; try discriminate H; injection H as <-; simpl;
    intuition eauto.
Qed.

End Startup.

Section StartupFailure.

Variable LookPath : string -> option string.
Variable cmd_Run : list event -> string -> list string -> option error.
Variable client_Get : list event -> string -> error + Response.
Variable json_Decode : string -> error + PackageInfo.

(** X3.  When python or pip cannot be found, every invocation, also one of
    show or search which never run pip, exits with status 1 after a single
    line on stderr: no command is dispatched. *)
Theorem missing_executable_blocks_everything :
  forall (pf : PersistentFlags) (inv : Invocation) (tr : list event),
    (LookPath "python3" = None /\ LookPath "python" = None) \/
    (LookPath "pip3" = None /\ LookPath "pip" = None) ->
    exists what,
      main LookPath cmd_Run client_Get json_Decode pf inv tr
      = (1, tr ++ [EvStderr ("error initializing PeakPip: " +:+ what
                             +:+ " executable not found in PATH" +:+ nl)]).
Proof.
  intros pf inv tr Hmissing. unfold main, Initialize.
  destruct Hmissing as [[-> ->] | [-> ->]].
  - by exists "python".
  - destruct (LookPath "python3"); [| destruct (LookPath "python")];
      first [by exists "pip" | by exists "python"].
Qed.

End StartupFailure.

(** X2, concrete run: both versioned names are on PATH. *)
Lemma Initialize_prefers_versioned_witness :
  Initialize World.LookPath NewPeakPip = inr World.peakPip /\
  (World.LookPath "pip3" = Some (pipPath World.peakPip) \/
   World.LookPath "pip3" = None /\
   World.LookPath "pip" = Some (pipPath World.peakPip)).
Proof.
  split; [reflexivity |].
  apply (Initialize_prefers_versioned World.LookPath NewPeakPip World.peakPip).
  reflexivity.
Defined.

(** X3, concrete run: show on a PATH without pip. *)
Lemma missing_executable_blocks_everything_witness :
  ((python_only_LookPath "python3" = None /\
    python_only_LookPath "python" = None) \/
   (python_only_LookPath "pip3" = None /\
    python_only_LookPath "pip" = None)) /\
  exists what,
    main python_only_LookPath World.cmd_Run World.client_Get World.json_Decode
      World.no_flags (InvokeShow ["requests"]) []
    = (1, [] ++ [EvStderr ("error initializing PeakPip: " +:+ what
                           +:+ " executable not found in PATH" +:+ nl)]).
Proof.
  split; [by right |].
  apply (missing_executable_blocks_everything python_only_LookPath
           World.cmd_Run World.client_Get World.json_Decode).
  by right.
Defined.

(** *** What a run may add to the trace *)

Lemma adds_only_ret {A} P (a : A) : adds_only P (ret a).
Proof. intros tr. exists []. by rewrite app_nil_r. Qed.

Lemma adds_only_bind {A B} P (c : M A) (k : A -> M B) :
  adds_only P c -> (forall a, adds_only P (k a)) -> adds_only P (bind c k).
Proof.
  intros Hc Hk tr. unfold bind. destruct (Hc tr) as (out1 & Heq1 & Hout1).
  destruct (c tr) as [a tr1]. simpl in Heq1. subst tr1.
  destruct (Hk a (tr ++ out1)) as (out2 & -> & Hout2).
  exists (out1 ++ out2). split; [by rewrite app_assoc |].
  by apply Forall_app.
Qed.

Lemma adds_only_emit P e : P e -> adds_only P (emit e).
Proof. intros He tr. exists [e]. split; [done |]. by constructor. Qed.

Lemma adds_only_Run cmd_Run P path args inherit :
  P (EvRun path args inherit) -> adds_only P (Run cmd_Run path args inherit).
Proof. intros He tr. exists [EvRun path args inherit]. split; [done |]. by constructor. Qed.

Lemma adds_only_Get client_Get P url :
  P (EvGet url) -> adds_only P (Get client_Get url).
Proof. intros He tr. exists [EvGet url]. split; [done |]. by constructor. Qed.

Lemma adds_only_for_each {A} P (f : A -> M unit) l :
  (forall x, adds_only P (f x)) -> adds_only P (for_each f l).
Proof.
  intros Hf. induction l as [| x rest IH]; simpl.
  - apply adds_only_ret.
  - apply adds_only_bind; [apply Hf | intros _; apply IH].
Qed.

Lemma adds_only_range_args P body args :
  (forall pkg, In pkg args -> adds_only P (body pkg)) ->
  adds_only P (range_args body args).
Proof.
  induction args as [| pkg rest IH]; intros Hbody; simpl.
  - apply adds_only_ret.
  - apply adds_only_bind; [apply Hbody; by left |].
    intros [err |]; [apply adds_only_ret |].
    apply IH. intros name Hin. apply Hbody. by right.
Qed.

(** Breaks a goal [adds_only P c] down along the structure of [c]; what is
    left are the goals [P e] for the events [c] can emit. *)
Ltac adds_only_steps :=
  repeat first
    [ apply adds_only_ret
    | apply adds_only_emit
    | apply adds_only_Run
    | apply adds_only_Get
    | apply adds_only_for_each; intros ?
    | apply adds_only_bind; [| intros ?]
    | match goal with
      | |- adds_only _ (if ?b then _ else _) => destruct b
      | |- adds_only _ (match ?x with _ => _ end) => destruct x
      end ].

Section Permitted.

Variable LookPath : string -> option string.
Variable cmd_Run : list event -> string -> list string -> option error.
Variable client_Get : list event -> string -> error + Response.
Variable json_Decode : string -> error + PackageInfo.

Local Abbreviation run_main := (main LookPath cmd_Run client_Get json_Decode).

Lemma GetPackageInfo_adds_only P p name :
  P (EvGet (record_url name)) ->
  adds_only P (GetPackageInfo client_Get json_Decode p name).
Proof.
  intros He. unfold GetPackageInfo. fold (record_url name).
  by adds_only_steps.
Qed.

Lemma ShowPackage_adds_only P p name :
  (forall s, P (EvStdout s)) ->
  P (EvGet (record_url name)) ->
  adds_only P (ShowPackage client_Get json_Decode p name).
Proof.
  intros Hout He. unfold ShowPackage, Printf.
  apply adds_only_bind; [by apply GetPackageInfo_adds_only |].
  intros r. by adds_only_steps.
Qed.

Lemma SearchPackages_adds_only P p query :
  P (EvGet (probe_url query)) ->
  P (EvGet (record_url query)) ->
  adds_only P (SearchPackages client_Get json_Decode p query).
Proof.
  intros Hprobe Hrecord. unfold SearchPackages. fold (probe_url query).
  apply adds_only_bind; [by apply adds_only_Get |].
  intros [err | resp]; [apply adds_only_ret |].
  destruct (_ =? _); [| apply adds_only_ret].
  apply adds_only_bind; [by apply GetPackageInfo_adds_only |].
  intros r. by adds_only_steps.
Qed.

Lemma execute_permitted p pf inv :
  adds_only (permitted (pipPath p) inv)
    (execute (fst (dispatch cmd_Run client_Get json_Decode p pf inv))
             (snd (dispatch cmd_Run client_Get json_Decode p pf inv))).
Proof.
  unfold execute, ValidateArgs.
  destruct inv as [user tgt req a | a | o a | a | a | a | dest a | a | a];
    unfold dispatch, fst, snd;
    cbv [Args PreRunE RunE installCmd uninstallCmd listCmd showCmd searchCmd
         upgradeCmd downloadCmd freezeCmd checkCmd].
  - destruct (MinimumNArgs 1 a); [apply adds_only_ret |].
    apply adds_only_bind.
    + unfold InstallRequirements, Printf. by adds_only_steps.
    + intros [err |]; [apply adds_only_ret |].
      apply adds_only_range_args. intros pkg _.
      unfold InstallPackage, Printf. by adds_only_steps.
  - destruct (MinimumNArgs 1 a); [apply adds_only_ret |].
    apply adds_only_bind;
      [apply adds_only_ret | intros [err |]; [apply adds_only_ret |]].
    apply adds_only_range_args. intros pkg _.
    unfold UninstallPackage, Printf. by adds_only_steps.
  - apply adds_only_bind;
      [apply adds_only_ret | intros [err |]; [apply adds_only_ret |]].
    unfold ListPackages. by adds_only_steps.
  - destruct (MinimumNArgs 1 a); [apply adds_only_ret |].
    apply adds_only_bind;
      [apply adds_only_ret | intros [err |]; [apply adds_only_ret |]].
    apply adds_only_range_args. intros pkg Hin.
    apply adds_only_bind.
    + apply ShowPackage_adds_only; [done |].
      split; [done |]. exists pkg. split; [done | by left].
    + intros r. unfold Println. by adds_only_steps.
  - destruct (ExactArgs 1 a); [apply adds_only_ret |].
    apply adds_only_bind;
      [apply adds_only_ret | intros [err |]; [apply adds_only_ret |]].
    destruct a as [| query rest]; [apply adds_only_ret |].
    apply adds_only_bind.
    + apply SearchPackages_adds_only; (split; [done |]); exists query;
        (split; [by left |]); [by right | by left].
    + intros [packages [err |]]; unfold Printf; by adds_only_steps.
  - destruct (MinimumNArgs 1 a); [apply adds_only_ret |].
    apply adds_only_bind;
      [apply adds_only_ret | intros [err |]; [apply adds_only_ret |]].
    apply adds_only_range_args. intros pkg _.
    unfold UpgradePackage, Printf. by adds_only_steps.
  - destruct (MinimumNArgs 1 a); [apply adds_only_ret |].
    apply adds_only_bind;
      [apply adds_only_ret | intros [err |]; [apply adds_only_ret |]].
    apply adds_only_range_args. intros pkg _.
    unfold DownloadPackage, Printf. by adds_only_steps.
  - apply adds_only_bind;
      [apply adds_only_ret | intros [err |]; [apply adds_only_ret |]].
    unfold FreezePackages. by adds_only_steps.
  - destruct (MinimumNArgs 1 a); [apply adds_only_ret |].
    apply adds_only_bind;
      [apply adds_only_ret | intros [err |]; [apply adds_only_ret |]].
    apply adds_only_range_args. intros pkg _.
    unfold CheckPackage, Printf. by adds_only_steps.
Qed.

Lemma main_permitted pip pf inv :
  (forall p, Initialize LookPath NewPeakPip = inr p -> pipPath p = pip) ->
  adds_only (permitted pip inv) (run_main pf inv).
Proof.
  intros Hpip. unfold main.
  destruct (Initialize LookPath NewPeakPip) as [err | p].
  - unfold Fprintf_Stderr. by adds_only_steps.
  - rewrite <- (Hpip p eq_refl). unfold Execute.
    pose proof (execute_permitted p pf inv) as Hexec.
    destruct (dispatch _ _ _ p pf inv) as [c a]. simpl in Hexec.
    apply adds_only_bind.
    + apply adds_only_bind; [exact Hexec |].
      intros [err |]; by adds_only_steps.
    + intros [err |]; unfold Fprintf_Stderr; by adds_only_steps.
Qed.

End Permitted.

Lemma Forall_not_run out :
  Forall (fun e => is_run e = false) out -> spawned out = [].
Proof.
  induction 1 as [| e out He _ IH]; [done |].
  unfold spawned in *. simpl. by rewrite He.
Qed.

Lemma Forall_not_get out :
  Forall (fun e => is_get e = false) out -> requested out = [].
Proof.
  induction 1 as [| e out He _ IH]; [done |].
  unfold requested in *. simpl. by rewrite He.
Qed.

Section Reach.

Variable LookPath : string -> option string.
Variable cmd_Run : list event -> string -> list string -> option error.
Variable client_Get : list event -> string -> error + Response.
Variable json_Decode : string -> error + PackageInfo.

Local Abbreviation run_main := (main LookPath cmd_Run client_Get json_Decode).

(** The path of pip after initialisation, if it succeeds. *)
Local Abbreviation found_pip :=
  (match Initialize LookPath NewPeakPip with
   | inr p => pipPath p
   | inl _ => ""
   end).

Lemma found_pip_correct p :
  Initialize LookPath NewPeakPip = inr p -> pipPath p = found_pip.
Proof. by intros ->. Qed.

(** X4.  A run only appends to the trace, and every child process it starts
    is the pip executable found by [Initialize]: the python path, although
    required at startup, is never executed. *)
Theorem every_child_is_pip :
  forall (pf : PersistentFlags) (inv : Invocation) (tr : list event)
         (p : PeakPip),
    Initialize LookPath NewPeakPip = inr p ->
    exists out,
      snd (run_main pf inv tr) = tr ++ out /\
      forall path args inherit,
        In (EvRun path args inherit) out -> path = pipPath p.
Proof.
  intros pf inv tr p Hinit.
  destruct (main_permitted LookPath cmd_Run client_Get json_Decode
              (pipPath p) pf inv) with (tr := tr) as (out & Hout & Hall).
  { intros p' Hp'. congruence. }
  exists out. split; [exact Hout |].
  intros path args inherit Hin.
  rewrite List.Forall_forall in Hall. by destruct (Hall _ Hin).
Qed.

(** X5.  Show and search never start a child process; every other command
    never makes an HTTP request. *)
Theorem commands_use_pip_or_the_index :
  forall (pf : PersistentFlags) (inv : Invocation) (tr : list event),
    if uses_index inv
    then spawned (snd (run_main pf inv tr)) = spawned tr
    else requested (snd (run_main pf inv tr)) = requested tr.
Proof.
  intros pf inv tr.
  destruct (main_permitted LookPath cmd_Run client_Get json_Decode
              found_pip pf inv found_pip_correct tr) as (out & -> & Hall).
  destruct (uses_index inv) eqn:Hidx.
  - assert (Hnone : spawned out = []).
    { apply Forall_not_run. eapply Forall_impl; [exact Hall |].
      intros [] Hp; try done. simpl in Hp. rewrite Hidx in Hp.
      by destruct Hp. }
    by rewrite spawned_app, Hnone, app_nil_r.
  - assert (Hnone : requested out = []).
    { apply Forall_not_get. eapply Forall_impl; [exact Hall |].
      intros [] Hp; try done. simpl in Hp. rewrite Hidx in Hp.
      by destruct Hp. }
    by rewrite requested_app, Hnone, app_nil_r.
Qed.

(** X6.  Every HTTP request of a run is for the record URL or the probe URL
    of one of the names given on the command line. *)
Theorem requests_are_for_the_arguments :
  forall (pf : PersistentFlags) (inv : Invocation) (tr : list event),
    exists out,
      snd (run_main pf inv tr) = tr ++ out /\
      forall url,
        In (EvGet url) out ->
        exists name, In name (args_of inv) /\
                     (url = record_url name \/ url = probe_url name).
Proof.
  intros pf inv tr.
  destruct (main_permitted LookPath cmd_Run client_Get json_Decode
              found_pip pf inv found_pip_correct tr) as (out & Hout & Hall).
  exists out. split; [exact Hout |].
  intros url Hin. rewrite List.Forall_forall in Hall.
  by destruct (Hall _ Hin).
Qed.

(** X7.  Show, search, freeze and check read none of the persistent flags:
    whatever the values of [--quiet], [--verbose], [--dry-run] and
    [--concurrent], the run is the same. *)
Theorem flags_without_effect :
  forall (pf pf' : PersistentFlags) (inv : Invocation) (tr : list event),
    ignores_flags inv = true ->
    run_main pf inv tr = run_main pf' inv tr.
Proof.
  intros pf pf' inv tr Hignore. unfold main.
  destruct (Initialize LookPath NewPeakPip) as [err | p]; [reflexivity |].
  by destruct inv.
Qed.

(** X8.  List and freeze accept any positional arguments and ignore them. *)
Theorem positional_arguments_ignored :
  forall (pf : PersistentFlags) (inv : Invocation) (a : list string)
         (tr : list event),
    takes_no_names inv = true ->
    run_main pf (with_args inv a) tr = run_main pf inv tr.
Proof.
  intros pf inv a tr Hno. unfold main.
  destruct (Initialize LookPath NewPeakPip) as [err | p]; [reflexivity |].
  by destruct inv.
Qed.

End Reach.

(** X4, concrete run: a failing user install with a requirements file. *)
Lemma every_child_is_pip_witness :
  Initialize World.LookPath NewPeakPip = inr World.peakPip /\
  exists out,
    snd (World.main World.no_flags
           (InvokeInstall true "/opt" "requirements.txt" ["ghost"]) [])
    = [] ++ out /\
    forall path args inherit,
      In (EvRun path args inherit) out -> path = "/usr/bin/pip3".
Proof.
  split; [reflexivity |].
  apply (every_child_is_pip World.LookPath World.cmd_Run World.client_Get
           World.json_Decode World.no_flags
           (InvokeInstall true "/opt" "requirements.txt" ["ghost"]) []
           World.peakPip).
  reflexivity.
Defined.

(** X7, concrete run: check with and without [--dry-run]. *)
Lemma flags_without_effect_witness :
  ignores_flags (InvokeCheck ["requests"; "ghost"]) = true /\
  World.main World.dry_run (InvokeCheck ["requests"; "ghost"]) []
  = World.main World.no_flags (InvokeCheck ["requests"; "ghost"]) [].
Proof.
  split; [reflexivity |].
  apply (flags_without_effect World.LookPath World.cmd_Run World.client_Get
           World.json_Decode). reflexivity.
Defined.

(** X8, concrete run: freeze with stray arguments. *)
Lemma positional_arguments_ignored_witness :
  takes_no_names (InvokeFreeze []) = true /\
  World.main World.no_flags (InvokeFreeze ["requests"; "--all"]) []
  = World.main World.no_flags (InvokeFreeze []) [].
Proof.
  split; [reflexivity |].
  apply (positional_arguments_ignored World.LookPath World.cmd_Run
           World.client_Get World.json_Decode World.no_flags (InvokeFreeze [])
           ["requests"; "--all"] []).
  reflexivity.
Defined.

(** *** Batches *)

Lemma range_args_all body ev :
  (forall pkg tr, body pkg tr = (None, tr ++ [ev pkg])) ->
  forall args tr, range_args body args tr = (None, tr ++ map ev args).
Proof.
  intros Hbody args. induction args as [| pkg rest IH]; intros tr; simpl.
  - by rewrite app_nil_r.
  - unfold bind. rewrite Hbody, IH, <- app_assoc. reflexivity.
Qed.

Lemma range_args_error body args tr e tr' :
  range_args body args tr = (Some e, tr') ->
  exists pkg tr0 tr1, In pkg args /\ body pkg tr0 = (Some e, tr1).
Proof.
  revert tr. induction args as [| pkg rest IH]; intros tr; simpl.
  - discriminate.
  - unfold bind. destruct (body pkg tr) as [[err |] tr1] eqn:Hbody.
    + intros [= <- <-]. exists pkg, tr, tr1. split; [by left | done].
    + intros Hrest. destruct (IH _ Hrest) as (name & tr0 & tr2 & Hin & Hname).
      exists name, tr0, tr2. split; [by right | done].
Qed.

Lemma Initialize_keeps LookPath p0 p :
  Initialize LookPath p0 = inr p ->
  userInstall p = userInstall p0 /\ target p = target p0.
Proof.
  unfold Initialize.
  destruct (LookPath "python3"), (LookPath "python"), (LookPath "pip3"),
    (LookPath "pip"); intros H; try discriminate H; by injection H as <-.
Qed.

Section BatchRuns.

Variable LookPath : string -> option string.
Variable cmd_Run : list event -> string -> list string -> option error.
Variable client_Get : list event -> string -> error + Response.
Variable json_Decode : string -> error + PackageInfo.

Local Abbreviation run_main := (main LookPath cmd_Run client_Get json_Decode).
Local Abbreviation dispatch_on := (dispatch cmd_Run client_Get json_Decode).

Lemma main_of_execute p pf inv tr :
  Initialize LookPath NewPeakPip = inr p ->
  run_main pf inv tr
  = match execute (fst (dispatch_on p pf inv)) (snd (dispatch_on p pf inv)) tr with
    | (Some err, tr1) =>
        (1, tr1 ++ [EvCobra (Error err);
                    EvStderr ("error: " +:+ Error err +:+ nl)])
    | (None, tr1) => (0, tr1)
    end.
Proof.
  intros Hinit. unfold main. rewrite Hinit. unfold Execute.
  destruct (dispatch_on p pf inv) as [c a]. unfold bind. simpl.
  destruct (execute c a tr) as [[err |] tr1]; simpl; [| done].
  by rewrite <- app_assoc.
Qed.

(** X9.  A dry run of install, uninstall, upgrade or download with at least
    one name exits with status 0 and adds to the trace exactly one line per
    name, in the order of the names (after the line for the requirements
    file, if one was given): no child process, no request. *)
Theorem dry_run_of_a_batch :
  forall (pf : PersistentFlags) (inv : Invocation) (tr : list event)
         (p : PeakPip),
    Initialize LookPath NewPeakPip = inr p ->
    flag_dry_run pf = true ->
    has_dry_run inv = true ->
    args_of inv <> [] ->
    run_main pf inv tr = (0, tr ++ dry_run_lines inv).
Proof.
  intros pf inv tr p Hinit Hdry Hhas Hargs.
  rewrite (main_of_execute p) by done.
  destruct inv as [user tgt req a | a | o a | a | a | a | dest a | a | a];
    try discriminate Hhas; simpl in Hargs;
    unfold dispatch, fst, snd, execute, ValidateArgs;
    cbv [Args PreRunE RunE installCmd uninstallCmd upgradeCmd downloadCmd];
    (destruct (MinimumNArgs 1 a) eqn:Hvalid;
     [by destruct a |]); unfold bind.
  - unfold InstallRequirements, InstallPackage, bind, Printf, emit.
    cbn [dryRun bind_install bind_persistent]. rewrite Hdry.
    unfold dry_run_lines.
    destruct (negb (String.eqb req "")); unfold ret; cbn beta iota;
      rewrite (range_args_all _
                 (fun pkg => EvStdout ("would install: " +:+ pkg +:+ nl)))
        by done;
      by rewrite <- ?app_assoc.
  - unfold UninstallPackage, bind, Printf, emit, ret.
    cbn [dryRun bind_persistent]. rewrite Hdry. cbn beta iota.
    by rewrite (range_args_all _
                  (fun pkg => EvStdout ("would uninstall: " +:+ pkg +:+ nl))).
  - unfold UpgradePackage, bind, Printf, emit, ret.
    cbn [dryRun bind_persistent]. rewrite Hdry. cbn beta iota.
    by rewrite (range_args_all _
                  (fun pkg => EvStdout ("would upgrade: " +:+ pkg +:+ nl))).
  - unfold DownloadPackage, bind, Printf, emit, ret.
    cbn [dryRun bind_persistent]. rewrite Hdry. cbn beta iota.
    by rewrite (range_args_all _
                  (fun pkg => EvStdout ("would download: " +:+ pkg +:+ " to "
                                        +:+ dest +:+ nl))).
Qed.

(** X10.  Whenever the loop of install, uninstall, show, upgrade or download
    returns an error, the error reads [failed to <verb> <pkg>: <cause>] for
    one of the names the command was given. *)
Theorem batch_error_names_the_package :
  forall (p : PeakPip) (req dest verb : string) (c : Command)
         (args : list string) (tr tr' : list event) (e : error),
    In (verb, c)
       [("install", installCmd cmd_Run p req);
        ("uninstall", uninstallCmd cmd_Run p);
        ("show", showCmd client_Get json_Decode p);
        ("upgrade", upgradeCmd cmd_Run p);
        ("download", downloadCmd cmd_Run p dest)] ->
    RunE c args tr = (Some e, tr') ->
    names_failing_package verb args e.
Proof.
  intros p req dest verb c args tr tr' e Hin Hrun.
  simpl in Hin.
  destruct Hin as [[= <- <-] | [[= <- <-] | [[= <- <-] | [[= <- <-] |
                    [[= <- <-] | []]]]]];
    cbv [RunE installCmd uninstallCmd showCmd upgradeCmd downloadCmd] in Hrun;
    apply range_args_error in Hrun as (pkg & tr0 & tr1 & Hpkg & Hbody);
    unfold bind in Hbody;
    match type of Hbody with
    | (let (_, _) := ?op in _) = _ => destruct op as [[cause |] tr2]
    end;
    try (destruct (1 <? length args)%nat);
    try discriminate Hbody;
    injection Hbody as <- _; by exists pkg, cause.
Qed.

(** X11.  With a requirements file, outside a dry run, the install command
    first runs [pip install -r file].  If that child fails, its error is
    returned as it is and no package of the command line is installed;
    otherwise the loop over the names starts from there. *)
Theorem requirements_are_installed_first :
  forall (p : PeakPip) (req : string) (args : list string) (tr : list event),
    req <> "" ->
    dryRun p = false ->
    args <> [] ->
    let child := EvRun (pipPath p) (InstallRequirements_args p req) true in
    execute (installCmd cmd_Run p req) args tr
    = match cmd_Run tr (pipPath p) (InstallRequirements_args p req) with
      | Some err => (Some err, tr ++ [child])
      | None => RunE (installCmd cmd_Run p req) args (tr ++ [child])
      end.
Proof.
  intros p req args tr Hreq Hdry Hargs child.
  unfold execute, ValidateArgs. cbv [Args PreRunE installCmd].
  destruct (MinimumNArgs 1 args) eqn:Hvalid; [by destruct args |].
  destruct (String.eqb_spec req "") as [-> | _]; [done |].
  unfold bind, InstallRequirements, Run. rewrite Hdry. simpl.
  by destruct (cmd_Run tr (pipPath p) (InstallRequirements_args p req)).
Qed.

(** X12.  The upgrade command never passes [--user] or [--target]: these
    flags exist on install only, so every child of an upgrade is
    [pip install --upgrade], then [--quiet] and [--verbose] as set, then
    the name; one child per name reached, in the order of the names. *)
Theorem upgrade_never_installs_for_the_user :
  forall (pf : PersistentFlags) (args : list string) (tr : list event)
         (p : PeakPip),
    Initialize LookPath NewPeakPip = inr p ->
    flag_dry_run pf = false ->
    exists n,
      spawned (snd (run_main pf (InvokeUpgrade args) tr))
      = spawned tr ++ map (upgrade_child (pipPath p) pf) (take n args).
Proof.
  intros pf args tr p Hinit Hdry.
  destruct (Initialize_keeps _ _ _ Hinit) as [Huser _]. simpl in Huser.
  rewrite (main_of_execute p) by done.
  unfold dispatch, fst, snd, execute, ValidateArgs.
  cbv [Args PreRunE RunE upgradeCmd].
  destruct (MinimumNArgs 1 args).
  { exists 0%nat. rewrite take_0. simpl. rewrite spawned_app. simpl.
    by rewrite !app_nil_r. }
  unfold bind at 1. unfold ret at 1. cbn beta iota.
  destruct (range_args_children
              (fun pkg =>
                 let* err := UpgradePackage cmd_Run (bind_persistent pf p) pkg in
                 match err with
                 | Some err => ret (Some (Errorf ("failed to upgrade " +:+ pkg
                                                  +:+ ": " +:+ Error err)))
                 | None => ret None
                 end)
              (upgrade_child (pipPath p) pf)) with (args := args) (tr := tr)
    as [n Hn].
  { intros pkg tr0. unfold bind, UpgradePackage, Run.
    cbn [dryRun pipPath bind_persistent]. rewrite Hdry.
    unfold UpgradePackage_args, upgrade_child.
    cbn [quiet verbose userInstall bind_persistent]. rewrite Huser.
    destruct (cmd_Run _ _ _); simpl; rewrite spawned_app; simpl;
      by destruct (flag_quiet pf), (flag_verbose pf). }
  exists n. destruct (range_args _ args tr) as [[err |] tr1]; simpl in Hn |- *.
  - rewrite spawned_app. simpl. by rewrite app_nil_r.
  - done.
Qed.

End BatchRuns.

(** X9, concrete run: a dry run of install with a requirements file. *)
Lemma dry_run_of_a_batch_witness :
  Initialize World.LookPath NewPeakPip = inr World.peakPip /\
  World.main World.dry_run
    (InvokeInstall false "" "requirements.txt" ["ghost"; "requests"]) []
  = (0, [] ++ [EvStdout ("would install requirements from: requirements.txt"
                         +:+ nl);
               EvStdout ("would install: ghost" +:+ nl);
               EvStdout ("would install: requests" +:+ nl)]).
Proof.
  split; [reflexivity |].
  by apply (dry_run_of_a_batch World.LookPath World.cmd_Run World.client_Get
              World.json_Decode World.dry_run
              (InvokeInstall false "" "requirements.txt" ["ghost"; "requests"])
              [] World.peakPip).
Defined.

(** X10, concrete run: uninstall stops at [broken]. *)
Lemma batch_error_names_the_package_witness :
  RunE (uninstallCmd World.cmd_Run World.peakPip) ["requests"; "broken"] []
  = (Some (Errorf "failed to uninstall broken: exit status 2"),
     [EvRun "/usr/bin/pip3" ["uninstall"; "-y"; "requests"] true;
      EvRun "/usr/bin/pip3" ["uninstall"; "-y"; "broken"] true]) /\
  names_failing_package "uninstall" ["requests"; "broken"]
    (Errorf "failed to uninstall broken: exit status 2").
Proof.
  split; [vm_compute; reflexivity |].
  apply (batch_error_names_the_package World.cmd_Run World.client_Get
           World.json_Decode World.peakPip "" "" "uninstall"
           (uninstallCmd World.cmd_Run World.peakPip) ["requests"; "broken"] []
           [EvRun "/usr/bin/pip3" ["uninstall"; "-y"; "requests"] true;
            EvRun "/usr/bin/pip3" ["uninstall"; "-y"; "broken"] true]).
  - right. by left.
  - vm_compute. reflexivity.
Defined.

(** X11, concrete run: the requirements child fails. *)
Lemma requirements_are_installed_first_witness :
  "broken" <> "" /\ dryRun World.peakPip = false /\ ["requests"] <> [] /\
  execute (installCmd World.cmd_Run World.peakPip "broken") ["requests"] []
  = (Some (ExitError 2),
     [EvRun "/usr/bin/pip3" ["install"; "-r"; "broken"] true]).
Proof.
  split; [done |]. split; [done |]. split; [done |].
  rewrite (requirements_are_installed_first World.cmd_Run World.peakPip
             "broken" ["requests"] []) by done.
  reflexivity.
Defined.

(** X12, concrete run: upgrade of three names. *)
Lemma upgrade_never_installs_for_the_user_witness :
  Initialize World.LookPath NewPeakPip = inr World.peakPip /\
  flag_dry_run World.no_flags = false /\
  exists n,
    spawned (snd (World.main World.no_flags
                    (InvokeUpgrade ["requests"; "ghost"; "idna"]) []))
    = spawned [] ++ map (upgrade_child "/usr/bin/pip3" World.no_flags)
                        (take n ["requests"; "ghost"; "idna"]).
Proof.
  split; [reflexivity |]. split; [reflexivity |].
  by apply (upgrade_never_installs_for_the_user World.LookPath World.cmd_Run
              World.client_Get World.json_Decode World.no_flags
              ["requests"; "ghost"; "idna"] [] World.peakPip).
Defined.

(** *** Output of search, check and show *)

Lemma for_each_lines {A} (f : A -> string) l tr :
  for_each (fun x tr0 => (tt, tr0 ++ [EvStdout (f x)])) l tr
  = (tt, tr ++ map (fun x => EvStdout (f x)) l).
Proof.
  revert tr. induction l as [| x rest IH]; intros tr; simpl.
  - by rewrite app_nil_r.
  - unfold bind. by rewrite IH, <- app_assoc.
Qed.

Section Reports.

Variable cmd_Run : list event -> string -> list string -> option error.
Variable client_Get : list event -> string -> error + Response.
Variable json_Decode : string -> error + PackageInfo.

Local Abbreviation fetch := (GetPackageInfo client_Get json_Decode).
Local Abbreviation search := (SearchPackages client_Get json_Decode).
Local Abbreviation search_cmd := (searchCmd client_Get json_Decode).

(** X13.  The probe and the record are two separate requests.  When the
    probe answers 200 but the request for the record then answers with
    another status, search does fail with the not-found error, after both
    requests and without any output. *)
Theorem search_reports_a_vanished_record :
  forall (p : PeakPip) (query : string) (tr : list event)
         (probe answer : Response),
    client_Get tr (probe_url query) = inr probe ->
    StatusCode probe = 200 ->
    client_Get (tr ++ [EvGet (probe_url query)]) (record_url query)
      = inr answer ->
    StatusCode answer <> 200 ->
    search p query tr
      = (([], Some (NotFoundError query)),
         tr ++ [EvGet (probe_url query); EvGet (record_url query)]) /\
    execute (search_cmd p) [query] tr
      = (Some (NotFoundError query),
         tr ++ [EvGet (probe_url query); EvGet (record_url query)]).
Proof.
  intros p query tr probe answer Hprobe H200 Hanswer Hstatus.
  assert (Hsearch : search p query tr
                    = (([], Some (NotFoundError query)),
                       tr ++ [EvGet (probe_url query);
                              EvGet (record_url query)])).
  { unfold SearchPackages, GetPackageInfo, bind, Get.
    fold (probe_url query) (record_url query).
    rewrite Hprobe, H200. simpl. rewrite Hanswer. unfold StatusOK.
    destruct (Z.eqb_spec (StatusCode answer) 200); [done |].
    simpl. by rewrite <- app_assoc. }
  split; [exact Hsearch |].
  unfold execute, ValidateArgs. cbv [Args PreRunE RunE searchCmd].
  unfold bind. simpl. by rewrite Hsearch.
Qed.

(** X14.  When the probe and the record request both answer 200 and the
    body decodes, the search command prints exactly one line, made of the
    name, version and summary of the decoded record, and succeeds. *)
Theorem search_hit_prints_one_line :
  forall (p : PeakPip) (query : string) (tr : list event)
         (probe answer : Response) (packageInfo : PackageInfo),
    client_Get tr (probe_url query) = inr probe ->
    StatusCode probe = 200 ->
    client_Get (tr ++ [EvGet (probe_url query)]) (record_url query)
      = inr answer ->
    StatusCode answer = 200 ->
    json_Decode (Body answer) = inr packageInfo ->
    execute (search_cmd p) [query] tr
      = (None,
         tr ++ [EvGet (probe_url query); EvGet (record_url query);
                EvStdout (Name (Info packageInfo) +:+ " ("
                          +:+ Version (Info packageInfo) +:+ ") - "
                          +:+ Summary (Info packageInfo) +:+ nl)]).
Proof.
  intros p query tr probe answer packageInfo Hprobe H200 Hanswer Hok Hdecode.
  unfold execute, ValidateArgs. cbv [Args PreRunE RunE searchCmd].
  unfold bind, SearchPackages, GetPackageInfo, bind, Get.
  fold (probe_url query) (record_url query). simpl.
  rewrite Hprobe, H200. simpl. rewrite Hanswer, Hok. simpl.
  rewrite Hdecode. simpl. unfold Printf, emit. by rewrite <- !app_assoc.
Qed.

(** X15.  The check command never fails and never skips a name: for each
    name, in order, it runs [pip show name] with the child's output
    discarded and prints one verdict line, [installed] or [not installed]. *)
Theorem check_reports_every_name :
  forall (p : PeakPip) (args : list string) (tr : list event),
    exists verdicts : list bool,
      length verdicts = length args /\
      RunE (checkCmd cmd_Run p) args tr
      = (None,
         tr ++ concat (zip_with (check_report (pipPath p)) args verdicts)).
Proof.
  intros p args. cbv [RunE checkCmd].
  set (body := fun pkg : string => _).
  assert (Hbody : forall pkg tr, exists installed,
             body pkg tr
             = (None, tr ++ check_report (pipPath p) pkg installed)).
  { intros pkg tr. subst body.
    unfold bind, CheckPackage, Run, CheckPackage_args, Printf, emit, ret,
      check_report.
    destruct (cmd_Run tr (pipPath p) ["show"; pkg]);
      [exists false | exists true]; by rewrite <- app_assoc. }
  clearbody body. induction args as [| pkg rest IH]; intros tr.
  - exists []. simpl. by rewrite app_nil_r.
  - simpl. unfold bind. destruct (Hbody pkg tr) as [installed ->].
    destruct (IH (tr ++ check_report (pipPath p) pkg installed))
      as (verdicts & Hlen & ->).
    exists (installed :: verdicts). split; [simpl; by rewrite Hlen |].
    simpl. by rewrite <- !app_assoc.
Qed.

(** X16.  [ShowPackage] prints nothing when the lookup fails and returns the
    error of the lookup unchanged.  When the lookup succeeds it prints the
    six fields, then the dependencies and the classifiers in the order of
    the record, each list indented under its title and left out altogether
    when empty. *)
Theorem ShowPackage_output :
  forall (p : PeakPip) (packageName : string) (tr : list event),
    ShowPackage client_Get json_Decode p packageName tr
    = match fetch p packageName tr with
      | (inl err, tr1) => (Some err, tr1)
      | (inr packageInfo, tr1) =>
          (None, tr1 ++ map EvStdout (show_lines (Info packageInfo)))
      end.
Proof.
  intros p packageName tr. unfold ShowPackage. unfold bind at 1.
  destruct (fetch p packageName tr) as [[err | packageInfo] tr1]; [done |].
  unfold show_lines, section_lines, bind, Printf, emit, ret.
  destruct (0 <? length (Dependencies (Info packageInfo)))%nat,
    (0 <? length (Classifiers (Info packageInfo)))%nat;
    rewrite ?for_each_lines; simpl; rewrite ?for_each_lines; simpl;
    rewrite <- ?app_assoc; simpl; rewrite ?map_app; simpl;
    by rewrite ?map_map, ?app_nil_r.
Qed.

End Reports.

(** X13, concrete run: the stale index. *)
Lemma search_reports_a_vanished_record_witness :
  stale_client_Get [] (probe_url "gone")
    = inr {| StatusCode := 200; Body := "" |} /\
  stale_client_Get [EvGet (probe_url "gone")] (record_url "gone")
    = inr {| StatusCode := 404; Body := "" |} /\
  execute (searchCmd stale_client_Get World.json_Decode World.peakPip)
    ["gone"] []
  = (Some (NotFoundError "gone"),
     [] ++ [EvGet (probe_url "gone"); EvGet (record_url "gone")]).
Proof.
  split; [reflexivity |]. split; [reflexivity |].
  by apply (search_reports_a_vanished_record stale_client_Get
              World.json_Decode World.peakPip "gone" []
              {| StatusCode := 200; Body := "" |}
              {| StatusCode := 404; Body := "" |}).
Defined.

(** X14, concrete run: searching [requests]. *)
Lemma search_hit_prints_one_line_witness :
  World.client_Get [] (probe_url "requests")
    = inr {| StatusCode := 200; Body := "" |} /\
  World.json_Decode World.requests_body = inr World.requests_info /\
  execute (searchCmd World.client_Get World.json_Decode World.peakPip)
    ["requests"] []
  = (None,
     [] ++ [EvGet (probe_url "requests"); EvGet (record_url "requests");
            EvStdout ("requests (2.32.3) - Python HTTP for Humans." +:+ nl)]).
Proof.
  split; [reflexivity |]. split; [reflexivity |].
  by apply (search_hit_prints_one_line World.client_Get World.json_Decode
              World.peakPip "requests" []
              {| StatusCode := 200; Body := "" |}
              {| StatusCode := 200; Body := World.requests_body |}
              World.requests_info).
Defined.

Section Success.

Variable LookPath : string -> option string.
Variable cmd_Run : list event -> string -> list string -> option error.
Variable client_Get : list event -> string -> error + Response.
Variable json_Decode : string -> error + PackageInfo.

Local Abbreviation run_main := (main LookPath cmd_Run client_Get json_Decode).

(** X17.  Outside a dry run, when no child fails, install, uninstall,
    upgrade and download run one child per name, in the order of the names
    (after the child for the requirements file, if one was given), print
    nothing themselves and exit with status 0. *)
Theorem batch_without_failure :
  forall (pf : PersistentFlags) (inv : Invocation) (tr : list event)
         (p : PeakPip),
    Initialize LookPath NewPeakPip = inr p ->
    flag_dry_run pf = false ->
    has_dry_run inv = true ->
    args_of inv <> [] ->
    (forall tr' args', cmd_Run tr' (pipPath p) args' = None) ->
    run_main pf inv tr = (0, tr ++ batch_children (bind_persistent pf p) inv).
Proof.
  intros pf inv tr p Hinit Hdry Hhas Hargs Hok.
  rewrite (main_of_execute _ _ _ _ p) by done.
  destruct inv as [user tgt req a | a | o a | a | a | a | dest a | a | a];
    try discriminate Hhas; simpl in Hargs;
    unfold dispatch, fst, snd, execute, ValidateArgs, batch_children;
    cbv [Args PreRunE RunE installCmd uninstallCmd upgradeCmd downloadCmd];
    (destruct (MinimumNArgs 1 a) eqn:Hvalid; [by destruct a |]);
    unfold bind at 1.
  - unfold InstallRequirements, Run.
    cbn [dryRun pipPath bind_install bind_persistent]. rewrite Hdry.
    destruct (negb (String.eqb req "")); unfold ret at 1; rewrite ?Hok;
      cbn beta iota;
      rewrite (range_args_all _
                 (fun pkg => EvRun (pipPath p)
                               (InstallPackage_args
                                  (bind_install user tgt (bind_persistent pf p))
                                  pkg) true));
      try by rewrite <- ?app_assoc.
    all: intros pkg tr0; unfold bind, InstallPackage, Run;
      cbn [dryRun pipPath bind_install bind_persistent];
      by rewrite Hdry, Hok.
  - unfold ret at 1. cbn beta iota.
    rewrite (range_args_all _
               (fun pkg => EvRun (pipPath p)
                             (UninstallPackage_args (bind_persistent pf p) pkg)
                             true)); [done |].
    intros pkg tr0. unfold bind, UninstallPackage, Run.
    cbn [dryRun pipPath bind_persistent]. by rewrite Hdry, Hok.
  - unfold ret at 1. cbn beta iota.
    rewrite (range_args_all _
               (fun pkg => EvRun (pipPath p)
                             (UpgradePackage_args (bind_persistent pf p) pkg)
                             true)); [done |].
    intros pkg tr0. unfold bind, UpgradePackage, Run.
    cbn [dryRun pipPath bind_persistent]. by rewrite Hdry, Hok.
  - unfold ret at 1. cbn beta iota.
    rewrite (range_args_all _
               (fun pkg => EvRun (pipPath p)
                             (DownloadPackage_args (bind_persistent pf p) pkg
                                dest) true)); [done |].
    intros pkg tr0. unfold bind, DownloadPackage, Run.
    cbn [dryRun pipPath bind_persistent]. by rewrite Hdry, Hok.
Qed.

End Success.

(** X17, concrete run: download of two names with a pip that never fails. *)
Lemma batch_without_failure_witness :
  Initialize World.LookPath NewPeakPip = inr World.peakPip /\
  (forall tr' args', obliging_cmd_Run tr' (pipPath World.peakPip) args' = None) /\
  main World.LookPath obliging_cmd_Run World.client_Get World.json_Decode
    World.no_flags (InvokeDownload "/tmp" ["ghost"; "requests"]) []
  = (0, [] ++ [EvRun "/usr/bin/pip3"
                 ["download"; "--dest"; "/tmp"; "ghost"] true;
               EvRun "/usr/bin/pip3"
                 ["download"; "--dest"; "/tmp"; "requests"] true]).
Proof.
  split; [reflexivity |]. split; [reflexivity |].
  by apply (batch_without_failure World.LookPath obliging_cmd_Run
              World.client_Get World.json_Decode World.no_flags
              (InvokeDownload "/tmp" ["ghost"; "requests"]) [] World.peakPip).
Defined.

(** *** Where a batch stops *)

Lemma range_args_first_failure body op sep (wrap : string -> error -> error) :
  (forall name tr,
      body name tr
      = match op name tr with
        | (Some err, tr1) => (Some (wrap name err), tr1)
        | (None, tr1) => (None, tr1 ++ sep)
        end) ->
  forall pre pkg post tr tr1 tr2 e,
    pass_all op sep pre tr = Some tr1 ->
    op pkg tr1 = (Some e, tr2) ->
    range_args body (pre ++ pkg :: post) tr = (Some (wrap pkg e), tr2).
Proof.
  intros Hbody pre pkg post.
  induction pre as [| name rest IH]; intros tr tr1 tr2 e Hpass Hfail; simpl.
  - injection Hpass as <-. unfold bind. by rewrite Hbody, Hfail.
  - simpl in Hpass. unfold bind. rewrite Hbody.
    destruct (op name tr) as [[err |] tr']; [discriminate Hpass |].
    by apply IH with (tr1 := tr1).
Qed.

Section Stops.

Variable LookPath : string -> option string.
Variable cmd_Run : list event -> string -> list string -> option error.
Variable client_Get : list event -> string -> error + Response.
Variable json_Decode : string -> error + PackageInfo.

Local Abbreviation run_main := (main LookPath cmd_Run client_Get json_Decode).
Local Abbreviation dispatch_on := (dispatch cmd_Run client_Get json_Decode).
Local Abbreviation Execute_on := (Execute cmd_Run client_Get json_Decode).
Local Abbreviation op_of := (operation cmd_Run client_Get json_Decode).

Lemma execute_first_failure p pf inv pre pkg post tr tr0 tr1 tr2 e :
  fail_fast inv = true ->
  prelude cmd_Run (bound p pf inv) inv tr = (None, tr0) ->
  pass_all (op_of (bound p pf inv) inv) (separator inv (pre ++ pkg :: post))
    pre tr0 = Some tr1 ->
  op_of (bound p pf inv) inv pkg tr1 = (Some e, tr2) ->
  execute (fst (dispatch_on p pf inv)) (pre ++ pkg :: post) tr
  = (Some (Errorf ("failed to " +:+ verb_of inv +:+ " " +:+ pkg +:+ ": "
                   +:+ Error e)), tr2).
Proof.
  intros Hff Hpre Hpass Hfail.
  assert (Hvalid : MinimumNArgs 1 (pre ++ pkg :: post) = None)
    by (apply MinimumNArgs_1; by destruct pre).
  destruct inv as [user tgt req a | a | o a | a | a | a | dest a | a | a];
    try discriminate Hff;
    unfold dispatch, fst, execute, ValidateArgs;
    cbv [Args PreRunE RunE installCmd uninstallCmd showCmd upgradeCmd
         downloadCmd];
    rewrite Hvalid; unfold bind at 1;
    cbn [bound prelude verb_of] in Hpre, Hpass, Hfail |- *;
    first [ rewrite Hpre
          | unfold ret in Hpre; injection Hpre as <-; unfold ret at 1 ];
    cbn beta iota;
    match type of Hpass with
    | pass_all ?op ?sep _ _ = _ =>
        eapply (range_args_first_failure _ op sep
                  (fun name err =>
                     Errorf ("failed to " +:+ _ +:+ " " +:+ name +:+ ": "
                             +:+ Error err)));
        [| exact Hpass | exact Hfail]
    end;
    intros name tr'; unfold bind; cbn [operation separator];
    match goal with
    | |- context [let (_, _) := ?c in _] => destruct c as [[err |] tr'']
    end;
    try destruct (1 <? length _)%nat;
    simpl; by rewrite ?app_nil_r.
Qed.

Lemma main_first_failure p pf inv pre pkg post tr tr0 tr1 tr2 e :
  Initialize LookPath NewPeakPip = inr p ->
  fail_fast inv = true ->
  prelude cmd_Run (bound p pf inv) inv tr = (None, tr0) ->
  pass_all (op_of (bound p pf inv) inv) (separator inv (pre ++ pkg :: post))
    pre tr0 = Some tr1 ->
  op_of (bound p pf inv) inv pkg tr1 = (Some e, tr2) ->
  run_main pf (with_args inv (pre ++ pkg :: post)) tr
  = (1, tr2 ++ failure_reports (verb_of inv) pkg e).
Proof.
  intros Hinit Hff Hpre Hpass Hfail.
  rewrite (main_of_execute _ _ _ _ p) by done.
  rewrite dispatch_with_args. cbn [fst snd].
  by rewrite (execute_first_failure p pf inv pre pkg post tr tr0 tr1 tr2 e).
Qed.


Lemma pip_operation_fails p pf inv pkg tr N :
  has_dry_run inv = true ->
  flag_dry_run pf = false ->
  cmd_Run tr (pipPath p) (name_args (bound p pf inv) inv pkg)
    = Some (ExitError N) ->
  op_of (bound p pf inv) inv pkg tr
  = (Some (ExitError N),
     tr ++ [EvRun (pipPath p) (name_args (bound p pf inv) inv pkg) true]).
Proof.
  intros Hhas Hdry Hrun.
  destruct inv; try discriminate Hhas;
    cbn [operation bound name_args] in Hrun |- *;
    unfold InstallPackage, UninstallPackage, UpgradePackage, DownloadPackage,
      Run;
    cbn [dryRun pipPath bind_install bind_persistent];
    by rewrite Hdry, Hrun.
Qed.


End Stops.


